(** * TokenGate: a shallow embedding of the admission-control engine

    The development follows the Python sources of the gateway:

    - [src/pricing/models.py]      ([PricingTable])      -> Module [Pricing]
    - [src/pricing/calculator.py]  ([CostCalculator])    -> Module [Calculator]
    - [src/budget/manager.py]      ([BudgetManager])     -> Module [Budget]
    - [src/anomaly/detector.py]    ([AnomalyDetector])   -> Module [Anomaly]
    - [src/proxy/forwarder.py]     ([OpenAIForwarder])   -> Module [Forwarder]
    - [src/proxy/router.py]        ([process_request])   -> Module [Router]
    - [src/dashboard/routes.py]    (operator endpoints)  -> Module [Dashboard]
    - [tokengate_cli.py]           ([TokenGateCLI])      -> Module [Cli]

    together with the parts of the Python runtime and of the Redis server
    that the code relies on (Modules [Py], [Num], [Redis]).

    Part I holds the definitions, Part II the lemmas and theorems. *)

From Stdlib Require Import ZArith String Ascii List Bool Lia QArith Qpower.
From Stdlib Require Import PrimFloat FloatOps SpecFloat DecimalString FloatAxioms.
From stdpp Require Import gmap strings.

Set Warnings "-inexact-float,-register-all".
Set Default Proof Using "Type".

Local Open Scope string_scope.
Local Open Scope Z_scope.
Import ListNotations.

(* ===================================================================== *)
(** * Part I: the model                                                   *)
(* ===================================================================== *)

(** ** Python runtime: exceptions, results, the state-and-exception monad *)

Module Py.

(** The exceptions that the modelled code raises or catches. Exceptions
    built by the gateway itself carry their message; library exceptions
    carry none (their text is not modelled, see [str_exn]). *)
Inductive exn : Type :=
| ValueError (msg : string)
| TypeError
| AttributeError
| OverflowError
| InvalidOperation          (* decimal.InvalidOperation *)
| ConnectionError           (* redis.exceptions.ConnectionError *)
| ResponseError             (* redis.exceptions.ResponseError *)
| RuntimeError (msg : string).

(** [str(e)]: the message of a gateway exception; a fixed tag stands for
    the text of a library exception. *)
Definition str_exn (e : exn) : string :=
  match e with
  | ValueError m => m
  | RuntimeError m => m
  | TypeError => "TypeError"
  | AttributeError => "AttributeError"
  | OverflowError => "int too large to convert to float"
  | InvalidOperation => "InvalidOperation"
  | ConnectionError => "ConnectionError"
  | ResponseError => "ResponseError"
  end.

Inductive result (A : Type) : Type :=
| Ok (a : A)
| Raise (e : exn).
Arguments Ok {A} a.
Arguments Raise {A} e.

Definition is_ok {A} (r : result A) : bool :=
  match r with Ok _ => true | Raise _ => false end.

(** Pure code that may raise. *)
Definition rbind {A B} (r : result A) (k : A -> result B) : result B :=
  match r with Ok a => k a | Raise e => Raise e end.

(** [",".join(xs)] and friends. *)
Definition join (sep : string) (xs : list string) : string :=
  String.concat sep xs.

(** [str(n)] for a Python int. *)
Definition str_int (n : Z) : string := NilZero.string_of_int (Z.to_int n).

(** [s.split()]: the maximal runs of characters that are not whitespace.
    Python's ASCII whitespace: space, tab, newline, carriage return,
    vertical tab, form feed and the separators 0x1c-0x1f. *)
Definition is_space (c : ascii) : bool :=
  let n := nat_of_ascii c in
  ((n =? 32) || ((9 <=? n) && (n <=? 13)) || ((28 <=? n) && (n <=? 31)))%nat.

Fixpoint split_aux (inword : bool) (s : string) : nat :=
  match s with
  | EmptyString => 0%nat
  | String c s' =>
      if is_space c then split_aux false s'
      else if inword then split_aux true s' else S (split_aux true s')
  end.

(** [len(s.split())] *)
Definition word_count (s : string) : Z := Z.of_nat (split_aux false s).

End Py.

Export Py.

(** ** Numbers: Python's [decimal.Decimal] and binary64 floats *)

Module Num.

(** A finite [decimal.Decimal]: the value [coef * 10 ^ expo]. The sign is
    folded into the coefficient (negative zero is not distinguished) and
    the special values NaN and Infinity are outside the model. A numeral
    text kept in the store is represented by the Decimal it denotes:
    [Decimal(str(d)) == d] with the same exponent, for every finite [d]. *)
Record Decimal : Type := mkDec { coef : Z; expo : Z }.

(** [getcontext().prec]: the default context rounds every arithmetic
    result to 28 significant digits, ROUND_HALF_EVEN. The exponent limits
    (Emax = 999999) are not modelled. *)
Definition prec28 : Z := 28.

Fixpoint ndigits_fuel (fuel : nat) (n : Z) : Z :=
  match fuel with
  | O => 1
  | S f => if n <? 10 then 1 else 1 + ndigits_fuel f (n / 10)
  end.

(** [len(str(abs(n)))] *)
Definition ndigits (n : Z) : Z :=
  ndigits_fuel (Z.to_nat (Z.log2 (Z.abs n))) (Z.abs n).

(** Drop the [k] low digits of [c >= 0], rounding half to even. *)
Definition round_half_even (c k : Z) : Z :=
  let p := 10 ^ k in
  let q := c / p in
  let r := c mod p in
  if 2 * r <? p then q
  else if 2 * r =? p then (if Z.even q then q else q + 1)
  else q + 1.

(** [Decimal._fix(context)] at precision [p]: a coefficient of more than
    [p] digits is rounded to [p] digits. *)
Definition fix_prec (p : Z) (d : Decimal) : Decimal :=
  let a := Z.abs (coef d) in
  if a <? 10 ^ p then d
  else
    let k := ndigits a - p in
    let q := round_half_even a k in
    if q =? 10 ^ p
    then mkDec (Z.sgn (coef d) * (q / 10)) (expo d + k + 1)
    else mkDec (Z.sgn (coef d) * q) (expo d + k).

Definition fix_ (d : Decimal) : Decimal := fix_prec prec28 d.

(** [Decimal._rescale(e)] for [e <= expo d]: pad with zeros. *)
Definition rescale (d : Decimal) (e : Z) : Decimal :=
  mkDec (coef d * 10 ^ (expo d - e)) e.

(** The exact sum, at the smaller of the two exponents. *)
Definition exact_add (a b : Decimal) : Decimal :=
  let e := Z.min (expo a) (expo b) in
  mkDec (coef (rescale a e) + coef (rescale b e)) e.

(** [Decimal.__add__]. With a zero operand the other one is rescaled, by
    at most [prec + 1] places; otherwise the exact sum is rounded (the
    shortcut that [_normalize] takes for far-apart exponents yields the
    same rounded result). *)
Definition dec_add (a b : Decimal) : Decimal :=
  let e := Z.min (expo a) (expo b) in
  if (coef a =? 0) && (coef b =? 0) then fix_ (mkDec 0 e)
  else if coef a =? 0 then fix_ (rescale b (Z.max e (expo b - prec28 - 1)))
  else if coef b =? 0 then fix_ (rescale a (Z.max e (expo a - prec28 - 1)))
  else fix_ (exact_add a b).

Definition dec_neg (d : Decimal) : Decimal := mkDec (- coef d) (expo d).

(** [Decimal.__sub__]: [self + other.copy_negate()]. *)
Definition dec_sub (a b : Decimal) : Decimal := dec_add a (dec_neg b).

(** Comparison is exact: it is not subject to the context precision. *)
Definition dec_cmp (a b : Decimal) : comparison :=
  let e := Z.min (expo a) (expo b) in
  coef (rescale a e) ?= coef (rescale b e).

Definition dec_geb (a b : Decimal) : bool :=
  match dec_cmp a b with Lt => false | _ => true end.

Definition dec_gtb (a b : Decimal) : bool :=
  match dec_cmp a b with Gt => true | _ => false end.

(** The builtin [max(a, b)] on two arguments: [b] when [b > a], else [a]. *)
Definition dec_max (a b : Decimal) : Decimal := if dec_gtb b a then b else a.

(** The rational number a Decimal stands for. *)
Definition dec_val (d : Decimal) : Q := inject_Z (coef d) * Qpower 10 (expo d).

(** [Decimal("0.0")] *)
Definition dec_zero : Decimal := mkDec 0 (-1).

(** *** binary64 *)

(** The implicit conversion of a Python int in [n / 1000.0]: correctly
    rounded (half to even), [OverflowError] beyond the float range. *)
Definition float_of_int (n : Z) : result float :=
  let f := SF2Prim (binary_normalize prec emax n 0 false) in
  if is_infinity f then Raise OverflowError else Ok f.

(** [float(text)] for a numeral text: the double nearest to the decimal
    value (infinity beyond the range, as [float("1e999")]). *)
Definition float_of_numeral (d : Decimal) : float :=
  if coef d =? 0 then 0%float
  else if 0 <=? expo d
  then SF2Prim (binary_normalize prec emax (coef d * 10 ^ expo d) 0 false)
  else
    match coef d with
    | Zpos m => SF2Prim (SFdiv prec emax (S754_finite false m 0)
                           (S754_finite false (Z.to_pos (10 ^ (- expo d))) 0))
    | Zneg m => SF2Prim (SFdiv prec emax (S754_finite true m 0)
                           (S754_finite false (Z.to_pos (10 ^ (- expo d))) 0))
    | Z0 => 0%float
    end.

(** The exact value of a finite float, as a Decimal:
    [m * 2^e = (m * 5^-e) * 10^e] for [e < 0]. *)
Definition exact_decimal (x : float) : option Decimal :=
  match Prim2SF x with
  | S754_zero _ => Some (mkDec 0 0)
  | S754_finite s m e =>
      let c := if 0 <=? e then Zpos m * 2 ^ e else Zpos m * 5 ^ (- e) in
      Some (mkDec (if s then - c else c) (Z.min e 0))
  | _ => None
  end.

(** Remove the trailing zeros of a coefficient. *)
Fixpoint strip_zeros (fuel : nat) (d : Decimal) : Decimal :=
  match fuel with
  | O => d
  | S f =>
      if (coef d =? 0) || negb (coef d mod 10 =? 0) then d
      else strip_zeros f (mkDec (coef d / 10) (expo d + 1))
  end.

(** The shortest digit string that reads back as [x]: the exact value
    rounded to 1, 2, ... 17 significant digits, the first that
    [float(...)] maps to [x] again. *)
Fixpoint shortest_digits (x : float) (exact : Decimal) (p : Z) (fuel : nat)
  : Decimal :=
  match fuel with
  | O => fix_prec 17 exact
  | S f =>
      let d := fix_prec p exact in
      if PrimFloat.eqb (float_of_numeral d) x then d
      else shortest_digits x exact (p + 1) f
  end.

(** [Decimal(str(x))] for a float [x]: the numeral that [repr] prints.
    [repr] writes positional notation when the decimal point falls
    within (-4, 16] and appends [.0] to an integral value; otherwise it
    writes [d.ddde+XX]. [None] for NaN and the infinities. *)
Definition repr_float (x : float) : option Decimal :=
  match exact_decimal x with
  | None => None
  | Some ex =>
      if coef ex =? 0 then Some dec_zero
      else
        let d := strip_zeros 800 (shortest_digits x ex 1 16) in
        let decpt := ndigits (coef d) + expo d in
        if (-4 <? decpt) && (decpt <=? 16) && (0 <=? expo d)
        then Some (rescale d (-1))
        else Some d
  end.

End Num.

Export Num.

(** ** JSON values and the builtins that are left abstract *)

Module Json.

(** A parsed JSON document (what [json.loads] returns): request bodies,
    chat messages, upstream responses. Objects keep their key order. *)
Inductive json : Type :=
| JNull
| JBool (b : bool)
| JInt (n : Z)
| JFloat (x : float)
| JStr (s : string)
| JList (l : list json)
| JObj (o : list (string * json)).

(** [d.get(k)] on a dict kept as an association list. *)
Fixpoint assoc {A} (k : string) (o : list (string * A)) : option A :=
  match o with
  | [] => None
  | (k', v) :: o' => if String.eqb k' k then Some v else assoc k o'
  end.

(** [k in d] *)
Definition has_key {A} (k : string) (o : list (string * A)) : bool :=
  match assoc k o with Some _ => true | None => false end.

(** Truth value of a JSON value in a condition. *)
Definition truthy (v : json) : bool :=
  match v with
  | JNull => false
  | JBool b => b
  | JInt n => negb (n =? 0)
  | JFloat x => negb (PrimFloat.eqb x 0)
  | JStr s => negb (String.eqb s "")
  | JList l => match l with [] => false | _ => true end
  | JObj o => match o with [] => false | _ => true end
  end.

(** Library functions whose results are texts the model does not look
    into. They are total, and nothing is assumed about them. *)
Class Builtins : Type := {
  json_dumps : json -> string;        (* json.dumps(v), keys as listed *)
  md5_hexdigest : string -> string;   (* hashlib.md5(s.encode()).hexdigest() *)
  py_str : json -> string;            (* str(v) *)
  isoformat : Z -> string;            (* datetime.isoformat() of an instant *)
  str_decimal : Decimal -> string;    (* str(d) for a numeral *)
  format_4f : float -> string         (* format(x, ".4f") *)
}.

End Json.

Export Json.

(** ** The shared state store: a Redis server *)

Module Redis.

(** Instants and durations are integers, in microseconds (the resolution
    of [datetime]). One request reads the clock once: every [utcnow()] of
    a call and the server's own clock show the same instant [now]. *)
Definition seconds (n : Z) : Z := n * 1000000.

(** A stored value. A Redis string is represented by what its text
    denotes: a numeral ([RNum], as [str] prints an int, a float or a
    Decimal), an ISO timestamp ([RTime], as [datetime.isoformat] prints
    an instant) or any other text ([RText]). A sorted set maps members
    to float scores and is kept in ascending (score, member) order; its
    members are the timestamp texts [str(now.timestamp())], represented
    by their instants. *)
Inductive rvalue : Type :=
| RText (s : string)
| RNum (d : Decimal)
| RTime (t : Z)
| RZSet (z : list (Z * float))
| RList (l : list string).

Record entry : Type := mkEntry { val : rvalue; expire_at : option Z }.

(** A key with an expiry is gone once the clock has passed it. Expired
    entries are never read; they stay in the map until overwritten. *)
Definition live (now : Z) (e : entry) : bool :=
  match expire_at e with
  | None => true
  | Some t => now <=? t
  end.

Definition lookup_live (now : Z) (k : string) (s : gmap string entry)
  : option entry :=
  match s !! k with
  | Some e => if live now e then Some e else None
  | None => None
  end.

(** GET *)
Definition cmd_get (now : Z) (k : string) (s : gmap string entry)
  : result (option rvalue) * gmap string entry :=
  match lookup_live now k s with
  | None => (Ok None, s)
  | Some e =>
      match val e with
      | RZSet _ | RList _ => (Raise ResponseError, s)   (* WRONGTYPE *)
      | v => (Ok (Some v), s)
      end
  end.

(** SET: the key loses any expiry. *)
Definition cmd_set (k : string) (v : rvalue) (s : gmap string entry)
  : result unit * gmap string entry :=
  (Ok tt, <[k := mkEntry v None]> s).

(** SETEX key ttl value *)
Definition cmd_setex (now : Z) (k : string) (ttl : Z) (v : rvalue)
  (s : gmap string entry) : result unit * gmap string entry :=
  (Ok tt, <[k := mkEntry v (Some (now + seconds ttl))]> s).

(** DEL *)
Definition cmd_delete (k : string) (s : gmap string entry)
  : result unit * gmap string entry :=
  (Ok tt, delete k s).

Definition int64_max : Z := 9223372036854775807.
Definition int64_min : Z := -9223372036854775808.

(** INCR: an absent key counts from zero and is created without expiry;
    an existing integer keeps its expiry. *)
Definition cmd_incr (now : Z) (k : string) (s : gmap string entry)
  : result Z * gmap string entry :=
  match lookup_live now k s with
  | None => (Ok 1, <[k := mkEntry (RNum (mkDec 1 0)) None]> s)
  | Some e =>
      match val e with
      | RNum d =>
          if (expo d =? 0) && (int64_min <=? coef d) && (coef d <? int64_max)
          then (Ok (coef d + 1),
                <[k := mkEntry (RNum (mkDec (coef d + 1) 0)) (expire_at e)]> s)
          else (Raise ResponseError, s)
      | _ => (Raise ResponseError, s)
      end
  end.

(** EXPIRE key ttl: sets the expiry of an existing key. *)
Definition cmd_expire (now : Z) (k : string) (ttl : Z) (s : gmap string entry)
  : result bool * gmap string entry :=
  match lookup_live now k s with
  | None => (Ok false, s)
  | Some e => (Ok true, <[k := mkEntry (val e) (Some (now + seconds ttl))]> s)
  end.

(** Sorted sets. *)
Definition zset_before (a b : Z * float) : bool :=
  PrimFloat.ltb (snd a) (snd b)
  || (PrimFloat.eqb (snd a) (snd b) && (fst a <? fst b)).

Fixpoint zset_insert (x : Z * float) (z : list (Z * float)) : list (Z * float) :=
  match z with
  | [] => [x]
  | y :: z' => if zset_before x y then x :: y :: z' else y :: zset_insert x z'
  end.

Definition zset_add (m : Z) (score : float) (z : list (Z * float))
  : list (Z * float) :=
  zset_insert (m, score) (filter (fun y => negb (fst y =? m)) z).

Definition is_nan (x : float) : bool := negb (PrimFloat.eqb x x).

(** ZADD key score member *)
Definition cmd_zadd (now : Z) (k : string) (m : Z) (score : float)
  (s : gmap string entry) : result unit * gmap string entry :=
  if is_nan score then (Raise ResponseError, s)
  else
    match lookup_live now k s with
    | None => (Ok tt, <[k := mkEntry (RZSet [(m, score)]) None]> s)
    | Some e =>
        match val e with
        | RZSet z =>
            (Ok tt, <[k := mkEntry (RZSet (zset_add m score z)) (expire_at e)]> s)
        | _ => (Raise ResponseError, s)
        end
    end.

(** ZREMRANGEBYSCORE key lo hi: drops the members whose score lies in
    [lo, hi]; a set left empty is removed. *)
Definition cmd_zremrangebyscore (now : Z) (k : string) (lo hi : float)
  (s : gmap string entry) : result unit * gmap string entry :=
  match lookup_live now k s with
  | None => (Ok tt, s)
  | Some e =>
      match val e with
      | RZSet z =>
          let z' := filter (fun y => negb (PrimFloat.leb lo (snd y)
                                           && PrimFloat.leb (snd y) hi)) z in
          match z' with
          | [] => (Ok tt, delete k s)
          | _ => (Ok tt, <[k := mkEntry (RZSet z') (expire_at e)]> s)
          end
      | _ => (Raise ResponseError, s)
      end
  end.

(** ZRANGE key 0 -1 WITHSCORES *)
Definition cmd_zrange_all (now : Z) (k : string) (s : gmap string entry)
  : result (list (Z * float)) * gmap string entry :=
  match lookup_live now k s with
  | None => (Ok [], s)
  | Some e =>
      match val e with
      | RZSet z => (Ok z, s)
      | _ => (Raise ResponseError, s)
      end
  end.

(** LPUSH key x *)
Definition cmd_lpush (now : Z) (k : string) (x : string) (s : gmap string entry)
  : result unit * gmap string entry :=
  match lookup_live now k s with
  | None => (Ok tt, <[k := mkEntry (RList [x]) None]> s)
  | Some e =>
      match val e with
      | RList l => (Ok tt, <[k := mkEntry (RList (x :: l)) (expire_at e)]> s)
      | _ => (Raise ResponseError, s)
      end
  end.

(** LTRIM key 0 stop, for [0 <= stop]: keeps the first [stop + 1] items. *)
Definition cmd_ltrim_head (now : Z) (k : string) (stop : Z)
  (s : gmap string entry) : result unit * gmap string entry :=
  match lookup_live now k s with
  | None => (Ok tt, s)
  | Some e =>
      match val e with
      | RList l =>
          (Ok tt, <[k := mkEntry (RList (firstn (Z.to_nat (stop + 1)) l))
                          (expire_at e)]> s)
      | _ => (Raise ResponseError, s)
      end
  end.

(** The commands that the gateway queues on a pipeline. *)
Inductive command : Type :=
| GET (k : string)
| SET (k : string) (v : rvalue)
| DEL (k : string).

Definition run_command (now : Z) (c : command) (s : gmap string entry)
  : result (option rvalue) * gmap string entry :=
  match c with
  | GET k => cmd_get now k s
  | SET k v => (Ok None, snd (cmd_set k v s))
  | DEL k => (Ok None, snd (cmd_delete k s))
  end.

(** MULTI ... EXEC: every queued command runs; the first error reply, if
    any, is raised after the transaction has run. *)
Fixpoint run_commands (now : Z) (cs : list command) (s : gmap string entry)
  : list (result (option rvalue)) * gmap string entry :=
  match cs with
  | [] => ([], s)
  | c :: cs' =>
      let '(r, s1) := run_command now c s in
      let '(rs, s2) := run_commands now cs' s1 in
      (r :: rs, s2)
  end.

Fixpoint collect (rs : list (result (option rvalue)))
  : result (list (option rvalue)) :=
  match rs with
  | [] => Ok []
  | Ok v :: rs' => rbind (collect rs') (fun vs => Ok (v :: vs))
  | Raise e :: _ => Raise e
  end.

Definition cmd_exec (now : Z) (cs : list command) (s : gmap string entry)
  : result (list (option rvalue)) * gmap string entry :=
  let '(rs, s') := run_commands now cs s in (collect rs, s').

End Redis.

Export Redis.

(** ** The world a request runs in *)

Module World.

(** What [log_request] writes ([src/utils/logging.py]): one structured
    record per call; the optional fields are present when given. *)
Record log_record : Type := mkLog {
  log_timestamp : Z;
  log_session_id : string;
  log_model : string;
  log_estimated_cost : float;
  log_decision : string;
  log_input_tokens : option json;
  log_output_tokens : option json;
  log_actual_cost : option float;
  log_error : option string
}.

(** The store, the availability of the store, and the log.
    [down n = true] says that the [n]-th command sent to the store fails
    with a connection error; [ops] counts the commands sent so far. *)
Record world : Type := mkWorld {
  store : gmap string entry;
  ops : nat;
  down : nat -> bool;
  logs : list log_record
}.

(** Code that reads and writes the world and may raise. An exception
    leaves the effects made before it in place. *)
Definition M (A : Type) : Type := world -> result A * world.

Definition ret {A} (a : A) : M A := fun w => (Ok a, w).

Definition raise {A} (e : exn) : M A := fun w => (Raise e, w).

Definition bind {A B} (m : M A) (k : A -> M B) : M B :=
  fun w =>
    match m w with
    | (Ok a, w') => k a w'
    | (Raise e, w') => (Raise e, w')
    end.

(** [try: m  except Exception as e: h e] *)
Definition try_except {A} (m : M A) (h : exn -> M A) : M A :=
  fun w =>
    match m w with
    | (Ok a, w') => (Ok a, w')
    | (Raise e, w') => h e w'
    end.

(** Pure code that may raise, run inside [M]. *)
Definition lift {A} (r : result A) : M A := fun w => (r, w).

(** One round trip to the store: the command counts, fails when the
    store is down, and otherwise acts on the store. *)
Definition redis {A} (c : gmap string entry -> result A * gmap string entry)
  : M A :=
  fun w =>
    let w1 := mkWorld (store w) (S (ops w)) (down w) (logs w) in
    if down w (ops w) then (Raise ConnectionError, w1)
    else
      let '(r, s') := c (store w) in
      (r, mkWorld s' (S (ops w)) (down w) (logs w)).

(** [log_request(...)]: an empty error text is left out, as
    [if error:] does. *)
Definition log_request (now : Z) (session_id model : string)
  (estimated_cost : float) (decision : string)
  (input_tokens output_tokens : option json) (actual_cost : option float)
  (error : option string) : M unit :=
  fun w =>
    let err := match error with
               | Some e => if String.eqb e "" then None else Some e
               | None => None
               end in
    let r := mkLog now session_id model estimated_cost decision
                   input_tokens output_tokens actual_cost err in
    (Ok tt, mkWorld (store w) (ops w) (down w) (logs w ++ [r])).

End World.

Export World.

Declare Scope py_scope.
Delimit Scope py_scope with py.
Notation "'let*' x ':=' m 'in' k" := (bind m (fun x => k))
  (at level 10, x pattern, m at level 100, k at level 200) : py_scope.
Notation "'do*' m 'in' k" := (bind m (fun _ => k))
  (at level 10, m at level 100, k at level 200) : py_scope.
Local Open Scope py_scope.

(** ** Configuration ([src/config/settings.py]) *)

Module Config.

Record Settings : Type := mkSettings {
  default_budget : float;
  strict_mode : bool
}.

(** The defaults of the [Settings] class. *)
Definition settings : Settings :=
  {| default_budget := 10.0; strict_mode := false |}.

End Config.

Export Config.

(** ** Pricing table ([src/pricing/models.py]) *)

Module Pricing.

(** One entry of the table: a dict with the keys ["input"] and
    ["output"], either of which may be missing. *)
Record pricing : Type := mkPricing {
  input : option float;
  output : option float
}.

(** [PricingTable.prices]: the dict loaded from the JSON file. A Python
    dict iterates in insertion order, here the order of the file, and
    holds a key once. *)
Definition prices_wf (prices : list (string * pricing)) : Prop :=
  List.NoDup (map fst prices).

(** [str.startswith]: [String.prefix key model]. *)
Definition not_found_message (prices : list (string * pricing)) (model : string)
  : string :=
  "Model '" ++ model ++ "' not found in pricing table. Available models: "
  ++ join ", " (map fst prices).

(** [PricingTable.get_pricing] *)
Definition get_pricing (prices : list (string * pricing)) (model : string)
  : result pricing :=
  match assoc model prices with
  | Some p => Ok p                                   (* exact match first *)
  | None =>
      match find (fun kv => String.prefix (fst kv) model) prices with
      | Some kv => Ok (snd kv)                       (* first key that is a prefix *)
      | None => Raise (ValueError (not_found_message prices model))
      end
  end.

(** [PricingTable.has_model] *)
Definition has_model (prices : list (string * pricing)) (model : string) : bool :=
  match get_pricing prices model with
  | Ok _ => true
  | Raise (ValueError _) => false
  | Raise _ => false
  end.

End Pricing.

Export Pricing.

(** ** Cost calculator ([src/pricing/calculator.py]) *)

Module Calculator.

(** The price used when the model is not in the table. *)
Definition fallback_pricing : pricing :=
  {| input := Some 0.03%float; output := Some 0.06%float |}.

(** [try: get_pricing(model)  except ValueError: fallback] *)
Definition pricing_or_fallback (prices : list (string * pricing))
  (model : string) : result pricing :=
  match get_pricing prices model with
  | Ok p => Ok p
  | Raise (ValueError _) => Ok fallback_pricing
  | Raise e => Raise e
  end.

(** [pricing.get(key, 0.0)] *)
Definition price_or_zero (p : option float) : float :=
  match p with Some x => x | None => 0%float end.

(** [sum(len(str(msg).split()) * 4 for msg in messages)] *)
Definition estimate_from_messages `{Builtins} (messages : list json) : Z :=
  fold_left (fun acc msg => acc + word_count (py_str msg) * 4) messages 0.

(** [CostCalculator.estimate_cost] *)
Definition estimate_cost `{Builtins} (prices : list (string * pricing))
  (model : string) (input_tokens max_tokens : option Z)
  (messages : option (list json)) : result float :=
  rbind (pricing_or_fallback prices model) (fun pricing =>
  let input_price_per_1k := price_or_zero (input pricing) in
  let output_price_per_1k := price_or_zero (output pricing) in
  let estimated_input :=
    match input_tokens with
    | Some n => n
    | None =>
        match messages with
        | Some (m :: ms) => estimate_from_messages (m :: ms)
        | _ => 1000
        end
    end in
  let estimated_output :=
    match max_tokens with
    | Some n => n
    | None => 500
    end in
  rbind (float_of_int estimated_input) (fun fin =>
  let input_cost := (fin / 1000.0 * input_price_per_1k)%float in
  rbind (float_of_int estimated_output) (fun fout =>
  let output_cost := (fout / 1000.0 * output_price_per_1k)%float in
  Ok (input_cost + output_cost)%float))).

(** A token count read from a usage object, divided by [1000.0]. *)
Definition per_thousand (v : json) : result float :=
  match v with
  | JInt n => rbind (float_of_int n) (fun x => Ok (x / 1000.0)%float)
  | JFloat x => Ok (x / 1000.0)%float
  | JBool b => Ok ((if b then 1 else 0) / 1000.0)%float
  | _ => Raise TypeError
  end.

(** [usage.get(key, 0)] *)
Definition usage_get (usage : list (string * json)) (k : string) : json :=
  match assoc k usage with Some v => v | None => JInt 0 end.

(** [CostCalculator.calculate_actual_cost] *)
Definition calculate_actual_cost (prices : list (string * pricing))
  (model : string) (usage : list (string * json)) : result float :=
  rbind (pricing_or_fallback prices model) (fun pricing =>
  let input_price_per_1k := price_or_zero (input pricing) in
  let output_price_per_1k := price_or_zero (output pricing) in
  let prompt_tokens := usage_get usage "prompt_tokens" in
  let completion_tokens := usage_get usage "completion_tokens" in
  rbind (per_thousand prompt_tokens) (fun pin =>
  let input_cost := (pin * input_price_per_1k)%float in
  rbind (per_thousand completion_tokens) (fun pout =>
  let output_cost := (pout * output_price_per_1k)%float in
  Ok (input_cost + output_cost)%float))).

End Calculator.

Export Calculator.

(** ** Budget ledger ([src/budget/manager.py]) *)

Module Budget.

Definition _get_budget_key (session_id : string) : string :=
  "session:" ++ session_id ++ ":budget".

Definition _get_spent_key (session_id : string) : string :=
  "session:" ++ session_id ++ ":spent".

(** [str(x)] for a float, as a stored text. *)
Definition str_float (x : float) : rvalue :=
  match repr_float x with
  | Some d => RNum d
  | None =>
      RText (if is_nan x then "nan"
             else if PrimFloat.ltb x 0 then "-inf" else "inf")
  end.

(** [_to_decimal] on a text: [Decimal(str(value))]. A text that is not a
    finite numeral raises [InvalidOperation] (the special values of
    [Decimal] are outside the model). *)
Definition _to_decimal (v : rvalue) : result Decimal :=
  match v with
  | RNum d => Ok d
  | _ => Raise InvalidOperation
  end.

(** [float(value)] on a text. *)
Definition float_of_text (v : rvalue) : result float :=
  match v with
  | RNum d => Ok (float_of_numeral d)
  | RText s =>
      if String.eqb s "nan" then Ok nan
      else if String.eqb s "inf" then Ok infinity
      else if String.eqb s "-inf" then Ok neg_infinity
      else Raise (ValueError "could not convert string to float")
  | _ => Raise (ValueError "could not convert string to float")
  end.

(** [BudgetManager.set_budget] *)
Definition set_budget (session_id : string) (amount : float) : M bool :=
  try_except
    (do* redis (cmd_set (_get_budget_key session_id) (str_float amount)) in
     ret true)
    (fun e => raise (RuntimeError
       ("Failed to set budget for session " ++ session_id ++ ": " ++ str_exn e))).

(** [BudgetManager.get_budget] *)
Definition get_budget (now : Z) (session_id : string) : M (option float) :=
  try_except
    (let* value := redis (cmd_get now (_get_budget_key session_id)) in
     match value with
     | None => ret None
     | Some v => let* x := lift (float_of_text v) in ret (Some x)
     end)
    (fun _ => ret None).

(** [BudgetManager.get_spent] *)
Definition get_spent (now : Z) (session_id : string) : M float :=
  try_except
    (let* value := redis (cmd_get now (_get_spent_key session_id)) in
     match value with
     | None => ret 0%float
     | Some v => lift (float_of_text v)
     end)
    (fun _ => ret 0%float).

(** The dict that [get_budget_info] returns. *)
Record budget_info : Type := mkInfo {
  info_budget : float;
  info_spent : float;
  info_remaining : float
}.

(** The builtin [max(a, b)] on floats. *)
Definition float_max (a b : float) : float := if PrimFloat.ltb a b then b else a.

(** [BudgetManager.get_budget_info] *)
Definition get_budget_info (cfg : Settings) (now : Z) (session_id : string)
  : M budget_info :=
  let* budget := get_budget now session_id in
  let budget := match budget with Some b => b | None => default_budget cfg end in
  let* spent := get_spent now session_id in
  let remaining := (budget - spent)%float in
  ret (mkInfo budget spent (float_max 0 remaining)).

(** [BudgetManager.check_budget] *)
Definition check_budget (cfg : Settings) (now : Z) (session_id : string)
  (estimated_cost : float) : M bool :=
  try_except
    (let budget_key := _get_budget_key session_id in
     let spent_key := _get_spent_key session_id in
     let* budget_value := redis (cmd_get now budget_key) in
     let* budget_value :=
       match budget_value with
       | Some v => ret v
       | None =>
           let v := str_float (default_budget cfg) in
           do* redis (cmd_set budget_key v) in ret v
       end in
     let* spent_value := redis (cmd_get now spent_key) in
     let spent_value :=
       match spent_value with Some v => v | None => RNum dec_zero end in
     let* budget := lift (_to_decimal budget_value) in
     let* spent := lift (_to_decimal spent_value) in
     let* estimated := lift (_to_decimal (str_float estimated_cost)) in
     let remaining := dec_sub budget spent in
     ret (dec_geb remaining estimated))
    (fun e => raise (RuntimeError
       ("Failed to check budget for session " ++ session_id ++ ": " ++ str_exn e))).

(** [results[i]] on the replies of a pipeline. *)
Definition reply (i : nat) (results : list (option rvalue)) : result (option rvalue) :=
  match nth_error results i with
  | Some r => Ok r
  | None => Raise (ValueError "list index out of range")
  end.

(** [BudgetManager.deduct_cost]. The pipeline is sent twice: the two
    reads, then the queued writes. *)
Definition deduct_cost (cfg : Settings) (now : Z) (session_id : string)
  (actual_cost : float) : M float :=
  try_except
    (let budget_key := _get_budget_key session_id in
     let spent_key := _get_spent_key session_id in
     let* results := redis (cmd_exec now [GET budget_key; GET spent_key]) in
     let* budget_value := lift (reply 0 results) in
     let* spent_value := lift (reply 1 results) in
     let '(budget_value, queued) :=
       match budget_value with
       | Some v => (v, [])
       | None =>
           let v := str_float (default_budget cfg) in (v, [SET budget_key v])
       end in
     let spent_value :=
       match spent_value with Some v => v | None => RNum dec_zero end in
     let* budget := lift (_to_decimal budget_value) in
     let* spent := lift (_to_decimal spent_value) in
     let* cost := lift (_to_decimal (str_float actual_cost)) in
     let new_spent := dec_add spent cost in
     let remaining := dec_sub budget new_spent in
     do* redis (cmd_exec now (queued ++ [SET spent_key (RNum new_spent)])) in
     ret (float_of_numeral (dec_max dec_zero remaining)))
    (fun e => raise (RuntimeError
       ("Failed to deduct cost for session " ++ session_id ++ ": " ++ str_exn e))).

(** [BudgetManager.reset_session] *)
Definition reset_session (now : Z) (session_id : string) : M bool :=
  try_except
    (do* redis (cmd_exec now [DEL (_get_budget_key session_id);
                              DEL (_get_spent_key session_id)]) in
     ret true)
    (fun e => raise (RuntimeError
       ("Failed to reset session " ++ session_id ++ ": " ++ str_exn e))).

End Budget.

Export Budget.

(** ** Anomaly engine ([src/anomaly/detector.py]) *)

Module Anomaly.

(** The thresholds set by [AnomalyDetector.__init__]. *)
Definition max_requests_per_minute : Z := 100.
Definition max_identical_requests : Z := 3.
Definition velocity_threshold : float := 1.0.
Definition freeze_duration_seconds : Z := 300.

(** [_get_request_hash]: the MD5 of the JSON text of
    [{"model", "messages", "max_tokens"}], keys sorted. *)
Definition _get_request_hash `{Builtins} (model : string)
  (messages : option (list json)) (max_tokens : option Z) : string :=
  let request_data :=
    JObj [("max_tokens", match max_tokens with Some n => JInt n | None => JNull end);
          ("messages", JStr match messages with
                            | Some (m :: ms) => json_dumps (JList (m :: ms))
                            | _ => ""
                            end);
          ("model", JStr model)] in
  md5_hexdigest (json_dumps request_data).

(** [_get_keys] *)
Definition key_request_count (session_id : string) : string :=
  "anomaly:" ++ session_id ++ ":requests:1min".
Definition key_request_history (session_id : string) : string :=
  "anomaly:" ++ session_id ++ ":history".
Definition key_last_request_hash (session_id : string) : string :=
  "anomaly:" ++ session_id ++ ":last_hash".
Definition key_identical_count (session_id : string) : string :=
  "anomaly:" ++ session_id ++ ":identical_count".
Definition key_spend_velocity (session_id : string) : string :=
  "anomaly:" ++ session_id ++ ":velocity".
Definition key_frozen_until (session_id : string) : string :=
  "anomaly:" ++ session_id ++ ":frozen_until".
Definition key_freeze_reason (session_id : string) : string :=
  "anomaly:" ++ session_id ++ ":freeze_reason".

(** The text of a stored string. *)
Definition text_of `{Builtins} (v : rvalue) : string :=
  match v with
  | RText s => s
  | RNum d => str_decimal d
  | RTime t => isoformat t
  | _ => ""
  end.

(** [f"{x}"] for an optional text. *)
Definition format_opt (x : option string) : string :=
  match x with Some s => s | None => "None" end.

(** Truth value of a text read from the store: a non-empty string. *)
Definition text_truthy (v : rvalue) : bool :=
  match v with
  | RText s => negb (String.eqb s "")
  | _ => true
  end.

(** [datetime.fromisoformat] *)
Definition fromisoformat (v : rvalue) : result Z :=
  match v with
  | RTime t => Ok t
  | _ => Raise (ValueError "Invalid isoformat string")
  end.

(** [_unfreeze_session] *)
Definition _unfreeze_session (session_id : string) : M unit :=
  do* redis (cmd_delete (key_frozen_until session_id)) in
  redis (cmd_delete (key_freeze_reason session_id)).

(** [_freeze_session] *)
Definition _freeze_session (now : Z) (session_id reason : string) : M unit :=
  let frozen_until := now + seconds freeze_duration_seconds in
  do* redis (cmd_setex now (key_frozen_until session_id)
               freeze_duration_seconds (RTime frozen_until)) in
  redis (cmd_setex now (key_freeze_reason session_id)
           freeze_duration_seconds (RText reason)).

(** [is_session_frozen] *)
Definition is_session_frozen `{Builtins} (now : Z) (session_id : string)
  : M (bool * option string) :=
  let* frozen_until := redis (cmd_get now (key_frozen_until session_id)) in
  match frozen_until with
  | Some v =>
      if text_truthy v then
        let* frozen_time := lift (fromisoformat v) in
        if now <? frozen_time then
          let* reason := redis (cmd_get now (key_freeze_reason session_id)) in
          ret (true, option_map text_of reason)
        else
          (* Freeze expired, clean up *)
          do* _unfreeze_session session_id in
          ret (false, None)
      else ret (false, None)
  | None => ret (false, None)
  end.

(** [datetime.timestamp()]: seconds since the epoch, as a float. *)
Definition timestamp (t : Z) : float :=
  (SF2Prim (binary_normalize prec emax t 0 false) / 1000000)%float.

(** [_log_request]: the audit trail keeps the last 100 requests. *)
Definition _log_request `{Builtins} (now : Z) (session_id model : string)
  (cost : float) : M unit :=
  let request_log :=
    json_dumps (JObj [("timestamp", JStr (isoformat now));
                      ("model", JStr model);
                      ("cost", JFloat cost)]) in
  do* redis (cmd_lpush now (key_request_history session_id) request_log) in
  do* redis (cmd_ltrim_head now (key_request_history session_id) 99) in
  do* redis (cmd_expire now (key_request_history session_id) 3600) in
  ret tt.

(** [sum(float(score) for _, score in recent_costs)] *)
Definition sum_scores (z : list (Z * float)) : float :=
  fold_left (fun acc y => (acc + snd y)%float) z 0%float.

(** [check_anomalies] *)
Definition check_anomalies `{Builtins} (now : Z) (session_id model : string)
  (messages : option (list json)) (max_tokens : option Z)
  (estimated_cost : float) : M (bool * option string) :=
  (* Check if already frozen *)
  let* (is_frozen, freeze_reason) := is_session_frozen now session_id in
  if is_frozen then
    ret (true, Some ("Session frozen: " ++ format_opt freeze_reason))
  else
  (* Check 1: Rate limiting (requests per minute) *)
  let* request_count := redis (cmd_incr now (key_request_count session_id)) in
  do* redis (cmd_expire now (key_request_count session_id) 60) in
  if max_requests_per_minute <? request_count then
    do* _freeze_session now session_id
          ("Exceeded rate limit: " ++ str_int request_count ++ " requests/minute") in
    ret (true, Some ("Rate limit exceeded: " ++ str_int request_count
                     ++ " requests in 1 minute"))
  else
  (* Check 2: Identical consecutive requests *)
  let request_hash := _get_request_hash model messages max_tokens in
  let* last_hash := redis (cmd_get now (key_last_request_hash session_id)) in
  let same :=
    match last_hash with
    | Some v => String.eqb (text_of v) request_hash
    | None => false
    end in
  let* looped :=
    if same then
      let* identical_count := redis (cmd_incr now (key_identical_count session_id)) in
      do* redis (cmd_expire now (key_identical_count session_id) 300) in
      if max_identical_requests <=? identical_count then
        do* _freeze_session now session_id
              ("Loop detected: " ++ str_int identical_count
               ++ " identical consecutive requests") in
        ret (Some ("Loop detected: " ++ str_int identical_count
                   ++ " identical requests"))
      else ret None
    else
      (* Reset identical count for new request *)
      do* redis (cmd_delete (key_identical_count session_id)) in
      ret None in
  match looped with
  | Some reason => ret (true, Some reason)
  | None =>
  (* Update last request hash *)
  do* redis (cmd_setex now (key_last_request_hash session_id) 300
               (RText request_hash)) in
  (* Check 3: Spending velocity (cost per minute) *)
  let velocity_key := key_spend_velocity session_id in
  do* redis (cmd_zadd now velocity_key now estimated_cost) in
  let one_minute_ago := timestamp (now - seconds 60) in
  do* redis (cmd_zremrangebyscore now velocity_key 0 one_minute_ago) in
  let* recent_costs := redis (cmd_zrange_all now velocity_key) in
  let total_cost_per_minute := sum_scores recent_costs in
  if PrimFloat.ltb velocity_threshold total_cost_per_minute then
    let reason := "High spending velocity: $"
                  ++ format_4f total_cost_per_minute ++ "/minute" in
    do* _freeze_session now session_id reason in
    ret (true, Some reason)
  else
  do* redis (cmd_expire now velocity_key 120) in
  do* _log_request now session_id model estimated_cost in
  ret (false, None)
  end.

End Anomaly.

Export Anomaly.

(** ** Upstream forwarder ([src/proxy/forwarder.py]) *)

Module Forwarder.

(** What the HTTP call to the upstream does, as seen by
    [forward_request]: a response (its body parsed as a JSON object, or
    [None] when the body is not JSON), or one of the three failures that
    the code tells apart. The call itself is outside the model. *)
Inductive upstream : Type :=
| Responded (status : Z) (body : option (list (string * json))) (text : string)
    (headers : list (string * string))
| TimeoutException
| RequestError (msg : string)
| OtherError (msg : string).

Definition error_body (message type : string) : list (string * json) :=
  [("error", JObj [("message", JStr message); ("type", JStr type)])].

(** [OpenAIForwarder.forward_request], given the outcome of the call. *)
Definition forward_request (u : upstream)
  : Z * list (string * json) * list (string * string) :=
  match u with
  | Responded status (Some body) _ headers => (status, body, headers)
  | Responded status None text headers =>
      (status, [("error", JObj [("message", JStr text)])], headers)
  | TimeoutException =>
      (504, error_body "Request timeout while forwarding to OpenAI" "timeout_error", [])
  | RequestError msg =>
      (502, error_body ("Failed to forward request to OpenAI: " ++ msg)
              "connection_error", [])
  | OtherError msg =>
      (500, error_body ("Unexpected error: " ++ msg) "internal_error", [])
  end.

End Forwarder.

Export Forwarder.

(** ** Admission pipeline ([src/proxy/router.py], [src/utils/validators.py]) *)

Module Router.

(** The fields of a request body that the pipeline reads, at the types
    the code annotates them with. Bodies whose fields have other JSON
    types are outside the model. *)
Record body : Type := mkBody {
  body_model : option string;
  body_messages : option (list json);
  body_max_tokens : option Z;
  body_input : option json
}.

(** An inbound request: [json = None] when the body is not valid JSON. *)
Record request : Type := mkRequest {
  json : option body;
  headers : list (string * string);
  query_params : list (string * string)
}.

(** A [JSONResponse]. *)
Record response : Type := mkResponse {
  status_code : Z;
  content : list (string * Json.json);
  response_headers : list (string * string)
}.

Definition error_response (status : Z) (message type : string) : response :=
  mkResponse status (error_body message type) [].

(** [x or y] on optional texts: the first that is a non-empty string. *)
Definition or_else (x y : option string) : option string :=
  match x with
  | Some s => if String.eqb s "" then y else Some s
  | None => y
  end.

(** [extract_session_id] *)
Definition extract_session_id (headers query_params : list (string * string))
  (strict_mode : bool) : option string :=
  let session_id := or_else (assoc "X-Session-ID" headers)
                            (assoc "x-session-id" headers) in
  let session_id := or_else session_id (assoc "session_id" query_params) in
  match session_id with
  | None => if strict_mode then None else Some "default"
  | Some s => Some s
  end.

(** [validate_chat_completion_request] *)
Definition validate_chat_completion_request (b : body) : bool * option string :=
  match body_model b with
  | None => (false, Some "Missing required field: model")
  | Some _ =>
      match body_messages b with
      | None => (false, Some "Missing required field: messages")
      | Some [] => (false, Some "Field 'messages' cannot be empty")
      | Some _ => (true, None)
      end
  end.

(** [validate_embedding_request] *)
Definition validate_embedding_request (b : body) : bool * option string :=
  match body_model b with
  | None => (false, Some "Missing required field: model")
  | Some _ =>
      match body_input b with
      | None => (false, Some "Missing required field: input")
      | Some _ => (true, None)
      end
  end.

(** [key.lower()] on ASCII. *)
Definition lower_ascii (c : ascii) : ascii :=
  let n := nat_of_ascii c in
  if ((65 <=? n) && (n <=? 90))%nat then ascii_of_nat (n + 32) else c.

Fixpoint lower (s : string) : string :=
  match s with
  | EmptyString => EmptyString
  | String c s' => String (lower_ascii c) (lower s')
  end.

(** The headers of the upstream response that are passed on. *)
Definition preserved_headers (hs : list (string * string))
  : list (string * string) :=
  filter (fun kv => String.eqb (lower (fst kv)) "content-type"
                    || String.eqb (lower (fst kv)) "x-request-id") hs.

Definition info_json (i : budget_info) : Json.json :=
  JObj [("budget", JFloat (info_budget i));
        ("spent", JFloat (info_spent i));
        ("remaining", JFloat (info_remaining i))].

(** The part of [process_request] that follows the upstream call: the
    actual cost is computed and deducted, the outcome is logged and the
    upstream response is returned. *)
Definition settle `{Builtins} (cfg : Settings)
  (prices : list (string * pricing)) (now : Z) (session_id model : string)
  (estimated_cost : float)
  (forwarded : Z * list (string * Json.json) * list (string * string))
  : M response :=
  let '(status_code, response_body, response_headers) := forwarded in
  (* Calculate actual cost from response *)
  let* (actual_cost, input_tokens, output_tokens) :=
    if (status_code =? 200) && has_key "usage" response_body then
      match assoc "usage" response_body with
      | Some (JObj usage) =>
          let input_tokens := usage_get usage "prompt_tokens" in
          let output_tokens := usage_get usage "completion_tokens" in
          match calculate_actual_cost prices model usage with
          | Ok c => ret (c, Some input_tokens, Some output_tokens)
          | Raise e =>
              (* Log error but don't fail the request *)
              do* log_request now session_id model estimated_cost "allowed"
                    (Some input_tokens) (Some output_tokens) None
                    (Some ("Failed to calculate actual cost: " ++ str_exn e)) in
              ret (0%float, Some input_tokens, Some output_tokens)
          end
      | _ => raise AttributeError       (* usage.get on a non-dict *)
      end
    else ret (0%float, None, None) in
  (* Deduct cost from budget (only if request was successful) *)
  do* (if (status_code =? 200) && PrimFloat.ltb 0 actual_cost then
         try_except
           (do* deduct_cost cfg now session_id actual_cost in ret tt)
           (fun e =>
              (* Log error but don't fail the request *)
              log_request now session_id model estimated_cost "allowed"
                input_tokens output_tokens (Some actual_cost)
                (Some ("Failed to deduct cost: " ++ str_exn e)))
       else ret tt) in
  (* Log request *)
  do* log_request now session_id model estimated_cost
        (if status_code =? 200 then "allowed" else "error")
        input_tokens output_tokens
        (if status_code =? 200 then Some actual_cost else None) None in
  (* Return response *)
  ret (mkResponse status_code response_body (preserved_headers response_headers)).

(** The part of [process_request] that precedes the upstream call. It
    ends with a rejection ([inl]) or with the estimated cost of a request
    that is let through ([inr]). *)
Definition admission `{Builtins} (cfg : Settings)
  (prices : list (string * pricing)) (now : Z) (session_id model : string)
  (b : body) : M (response + float) :=
  (* Check for anomalies first *)
  let* (is_anomalous, anomaly_reason) :=
    check_anomalies now session_id model (body_messages b) (body_max_tokens b) 0 in
  if is_anomalous then
    do* log_request now session_id model 0 "blocked_anomaly" None None None
          anomaly_reason in
    ret (inl (mkResponse 429
      [("error", JObj [("message", JStr ("Request blocked due to anomaly detection: "
                                          ++ format_opt anomaly_reason));
                       ("type", JStr "rate_limit_exceeded");
                       ("anomaly_reason",
                        match anomaly_reason with
                        | Some r => JStr r | None => JNull end)])] []))
  else
  (* Estimate cost *)
  match estimate_cost prices model None (body_max_tokens b) (body_messages b) with
  | Raise e =>
      let msg := "Failed to estimate cost: " ++ str_exn e in
      do* log_request now session_id model 0 "error" None None None (Some msg) in
      ret (inl (error_response 500 msg "internal_error"))
  | Ok estimated_cost =>
  (* Check budget *)
  let* has_budget :=
    try_except
      (let* ok := check_budget cfg now session_id estimated_cost in ret (Ok ok))
      (fun e => ret (Raise e)) in
  match has_budget with
  | Raise e =>
      do* log_request now session_id model estimated_cost "error" None None None
            (Some ("Budget check failed: " ++ str_exn e)) in
      ret (inl (error_response 503 "Budget service unavailable" "service_unavailable"))
  | Ok false =>
      do* log_request now session_id model estimated_cost "blocked"
            None None None None in
      let* budget_info := get_budget_info cfg now session_id in
      ret (inl (mkResponse 429
        [("error", JObj [("message", JStr ("Budget exceeded. Remaining: $"
                            ++ format_4f (info_remaining budget_info)
                            ++ ", Required: $" ++ format_4f estimated_cost));
                         ("type", JStr "insufficient_quota");
                         ("budget_info", info_json budget_info)])] []))
  | Ok true => ret (inr estimated_cost)
  end
  end.

(** [process_request]. [validate_func] is the validator of the endpoint,
    if it has one; [u] is what the upstream call does if it is made. An
    exception that leaves [process_request] is not turned into a
    response by the gateway. *)
Definition process_request `{Builtins} (cfg : Settings)
  (prices : list (string * pricing)) (now : Z) (req : request)
  (validate_func : option (body -> bool * option string)) (u : upstream)
  : M response :=
  (* Parse request body *)
  match json req with
  | None => ret (error_response 400 "Invalid JSON in request body"
                   "invalid_request_error")
  | Some b =>
  (* Validate request structure if validator provided *)
  match match validate_func with
        | Some validate =>
            let '(is_valid, error_msg) := validate b in
            if is_valid then None else Some error_msg
        | None => None
        end with
  | Some error_msg =>
      ret (mkResponse 400
             [("error", JObj [("message", match error_msg with
                                          | Some m => JStr m | None => JNull end);
                              ("type", JStr "invalid_request_error")])] [])
  | None =>
  (* Extract session_id *)
  match extract_session_id (headers req) (query_params req) (strict_mode cfg) with
  | None =>
      ret (error_response 400
             "session_id is required (X-Session-ID header or session_id query param)"
             "invalid_request_error")
  | Some session_id =>
  (* Get model *)
  let model := match body_model b with Some m => m | None => "unknown" end in
  let* verdict := admission cfg prices now session_id model b in
  match verdict with
  | inl rejection => ret rejection
  | inr estimated_cost =>
      (* Forward request to OpenAI *)
      settle cfg prices now session_id model estimated_cost (forward_request u)
  end
  end
  end
  end.

(** The three endpoints. *)
Definition chat_completions `{Builtins} cfg prices now req u : M response :=
  process_request cfg prices now req (Some validate_chat_completion_request) u.

Definition embeddings `{Builtins} cfg prices now req u : M response :=
  process_request cfg prices now req (Some validate_embedding_request) u.

Definition completions `{Builtins} cfg prices now req u : M response :=
  process_request cfg prices now req None u.

End Router.

Export Router.

(** ** Reference definitions and fixtures used by the statements of Part II *)

Module Reference.

(** The lookup rule as the specification words it: exact match first,
    then the longest registered key that is a prefix of the model name.
    [get_pricing] is compared with it in Part II. *)
Definition longer_prefix (model : string) (best : option (string * pricing))
  (kv : string * pricing) : option (string * pricing) :=
  if String.prefix (fst kv) model then
    match best with
    | Some b =>
        if (String.length (fst b) <? String.length (fst kv))%nat
        then Some kv else best
    | None => Some kv
    end
  else best.

Definition spec_get_pricing (prices : list (string * pricing)) (model : string)
  : option pricing :=
  match assoc model prices with
  | Some p => Some p
  | None => option_map snd (fold_left (longer_prefix model) prices None)
  end.




(** A store that is reachable throughout. *)
Definition reachable (w : world) : Prop := forall n, down w n = false.

(** A world with an empty store, a reachable store and an empty log. *)
Definition fresh_world : world := mkWorld ∅ 0 (fun _ => false) [].

(** A catalog with the prices of scenario B, and one in which a key is
    listed before a longer key that extends it. *)
Definition gpt4_price : pricing := mkPricing (Some 0.03%float) (Some 0.06%float).
Definition turbo_price : pricing := mkPricing (Some 0.01%float) (Some 0.03%float).
Definition gpt4_catalog : list (string * pricing) := [("gpt-4", gpt4_price)].
Definition turbo_catalog : list (string * pricing) :=
  [("gpt-4", gpt4_price); ("gpt-4-turbo", turbo_price)].

(** Stand-ins for the library functions, for running the model on
    concrete requests: the fingerprint of a request is the text that is
    hashed, and a JSON value is rendered by its kind. *)
Definition sample_dumps_flat (v : Json.json) : string :=
  match v with
  | JNull => "null"
  | JBool b => if b then "true" else "false"
  | JInt n => str_int n
  | JFloat _ => "float"
  | JStr s => s
  | JList _ => "list"
  | JObj _ => "object"
  end.

Definition sample_dumps (v : Json.json) : string :=
  match v with
  | JObj o => join "," (map (fun kv => fst kv ++ "=" ++ sample_dumps_flat (snd kv)) o)
  | JList l => join "," (map sample_dumps_flat l)
  | _ => sample_dumps_flat v
  end.

Definition sample_builtins : Builtins := {|
  json_dumps := sample_dumps;
  md5_hexdigest := fun s => s;
  py_str := sample_dumps;
  isoformat := fun t => str_int t;
  str_decimal := fun d => str_int (coef d) ++ "E" ++ str_int (expo d);
  format_4f := fun _ => "0.0000"
|}.






(** The keys that hold the anomaly state of a session. *)
Definition anomaly_keys (sid : string) : list string :=
  [key_request_count sid; key_request_history sid; key_last_request_hash sid;
   key_identical_count sid; key_spend_velocity sid; key_frozen_until sid;
   key_freeze_reason sid].

(** The request count that the engine finds under key [k] at [now]: the
    stored integer, or zero when the key is absent or has expired. *)
Definition counter_is (now : Z) (k : string) (s : gmap string entry) (c : Z) : Prop :=
  match lookup_live now k s with
  | Some e => val e = RNum (mkDec c 0) /\ int64_min <= c
  | None => c = 0
  end.

(** A call of the anomaly check, as the admission pipeline makes it:
    at an instant, for the model, messages and [max_tokens] of a request
    body, with the placeholder cost [0.0]. *)
Record call : Type := mkCall {
  at_time : Z;
  call_model : string;
  call_messages : option (list Json.json);
  call_max_tokens : option Z
}.

Definition check_call `{Builtins} (sid : string) (c : call)
  : M (bool * option string) :=
  check_anomalies (at_time c) sid (call_model c) (call_messages c)
    (call_max_tokens c) 0.

(** The calls of a session, one after the other: their results and the
    world they leave. *)
Fixpoint run_calls `{Builtins} (sid : string) (cs : list call) (w : world)
  : list (result (bool * option string)) * world :=
  match cs with
  | [] => ([], w)
  | c :: cs' =>
      let '(r, w1) := check_call sid c w in
      let '(rs, w2) := run_calls sid cs' w1 in
      (r :: rs, w2)
  end.

(** The request was let through: [(False, None)]. *)
Definition admitted (r : result (bool * option string)) : bool :=
  match r with
  | Ok (false, None) => true
  | _ => false
  end.



(** Sample traffic: [n] calls [gap] apart from [t], for two models in
    turn, so that no two consecutive calls are identical; and [n]
    identical calls one second apart. *)
Fixpoint paced_calls (gap : Z) (n : nat) (t : Z) : list call :=
  match n with
  | O => []
  | S n' =>
      mkCall t (if Nat.even n then "gpt-4" else "gpt-3.5-turbo") None None
      :: paced_calls gap n' (t + gap)
  end.

Fixpoint identical_calls (n : nat) (t : Z) : list call :=
  match n with
  | O => []
  | S n' => mkCall t "gpt-4" (Some [JStr "hello"]) (Some 16)
            :: identical_calls n' (t + seconds 1)
  end.

(** An instant in November 2023, in microseconds since the epoch. *)
Definition sample_instant : Z := seconds 1700000000.




(** The request gets as far as the anomaly check: its body parses,
    passes the validator of the endpoint and names a session. *)
Definition reaches_checks (cfg : Settings) (req : request)
  (validate_func : option (body -> bool * option string)) (b : body)
  (sid : string) : Prop :=
  json req = Some b
  /\ match validate_func with
     | Some validate => fst (validate b) = true
     | None => True
     end
  /\ extract_session_id (headers req) (query_params req) (strict_mode cfg) = Some sid.


(** The model that the pipeline prices a request with. *)
Definition model_of (b : body) : string :=
  match body_model b with Some m => m | None => "unknown" end.

(** A chat request of session alice, an upstream answer with a usage
    object, and stores that fail from a given command on. *)
Definition sample_request : request :=
  mkRequest (Some (mkBody (Some "gpt-4") (Some [JStr "hello"]) (Some 16) None))
            [("x-session-id", "alice")] [].

Definition sample_answer : list (string * Json.json) :=
  [("id", JStr "chatcmpl-123");
   ("usage", JObj [("prompt_tokens", JInt 1000); ("completion_tokens", JInt 500)])].

Definition down_from (n : nat) : world :=
  mkWorld ∅ 0 (fun i => (n <=? i)%nat) [].

(** A successful upstream answer with the given JSON body. *)
Definition answered (body : list (string * Json.json)) : upstream :=
  Responded 200 (Some body) "" [("Content-Type", "application/json")].

End Reference.

Export Reference.

(** ** Properties of effectful code used by the statements of Part II *)

Module Effects.


(** [frame K P m]: a run of [m] either ends with a result in [P] or
    leaves every key outside [K] as it was. *)
Definition frame (K : string -> Prop) {A} (P : result A -> Prop) (m : M A) : Prop :=
  forall w, P (fst (m w))
            \/ (forall k, ~ K k -> store (snd (m w)) !! k = store w !! k).

Definition raises {A} (P : exn -> Prop) (r : result A) : Prop :=
  match r with Raise e => P e | Ok _ => False end.

(** [surfaces m]: code that catches nothing. A run of [m] leaves the
    availability of the store as it was, never takes back a command, and
    ends with the connection error if one of its commands failed. *)
Definition surfaces {A} (m : M A) : Prop :=
  forall w,
    down (snd (m w)) = down w
    /\ (ops w <= ops (snd (m w)))%nat
    /\ (forall n, (ops w <= n < ops (snd (m w)))%nat -> down w n = true ->
        fst (m w) = Raise ConnectionError).


End Effects.

Export Effects.

(** ** Usage extraction ([CostCalculator.extract_usage_from_response]) *)

Module Responses.

(** What a call returns or raises. Python's [None] is [JNull]. *)
Inductive usage_result : Type :=
| Returns (v : Json.json)
| RaisesTypeError
| RaisesKeyError.

(** [pat in s] on texts: [pat] occurs in [s]. *)
Fixpoint contains (pat s : string) : bool :=
  String.prefix pat s
  || match s with
     | String _ s' => contains pat s'
     | EmptyString => false
     end.

(** [len(v)]; [None] where Python raises [TypeError]. *)
Definition py_len (v : Json.json) : option nat :=
  match v with
  | JStr s => Some (String.length s)
  | JList l => Some (length l)
  | JObj o => Some (length o)
  | JNull | JBool _ | JInt _ | JFloat _ => None
  end.

(** ["usage" in v]; [None] where Python raises [TypeError]. *)
Definition usage_in (v : Json.json) : option bool :=
  match v with
  | JObj o => Some (has_key "usage" o)
  | JList l =>
      Some (existsb (fun x => match x with
                              | JStr s => String.eqb s "usage"
                              | _ => false
                              end) l)
  | JStr s => Some (contains "usage" s)
  | JNull | JBool _ | JInt _ | JFloat _ => None
  end.

(** [if "usage" in choice: return choice["usage"]], else [None]. *)
Definition usage_of_choice (choice : Json.json) : usage_result :=
  match usage_in choice with
  | None => RaisesTypeError
  | Some false => Returns JNull
  | Some true =>
      match choice with
      | JObj o =>
          match assoc "usage" o with
          | Some u => Returns u
          | None => RaisesKeyError
          end
      | _ => RaisesTypeError       (* a list or a text indexed by a text *)
      end
  end.

(** [CostCalculator.extract_usage_from_response] *)
Definition extract_usage_from_response (response_data : list (string * Json.json))
  : usage_result :=
  match assoc "usage" response_data with
  | Some usage => Returns usage
  | None =>
      match assoc "choices" response_data with
      | None => Returns JNull
      | Some choices =>
          match py_len choices with
          | None => RaisesTypeError
          | Some O => Returns JNull
          | Some (S _) =>
              (* choices[0] *)
              match choices with
              | JList (choice :: _) => usage_of_choice choice
              | JStr (String c _) => usage_of_choice (JStr (String c EmptyString))
              | JObj _ => RaisesKeyError
              | _ => RaisesTypeError
              end
          end
      end
  end.

End Responses.

Export Responses.

(** ** Session statistics ([AnomalyDetector.get_session_stats]) *)

Module Stats.

(** The dict that [get_session_stats] returns. *)
Record session_stats : Type := mkStats {
  is_frozen : bool;
  freeze_reason : option string;
  requests_last_minute : Z;
  identical_consecutive : Z;
  spending_velocity_per_minute : float;
  stats_max_requests_per_minute : Z;
  stats_max_identical_requests : Z;
  stats_velocity_threshold : float
}.

(** [int(x or 0)] for a text [x] read from the store: an absent or empty
    text counts as zero, an integer literal as its value; any other text
    raises [ValueError]. *)
Definition int_or_zero (x : option rvalue) : result Z :=
  match x with
  | None => Ok 0
  | Some v =>
      if text_truthy v then
        match v with
        | RNum d =>
            if expo d =? 0 then Ok (coef d)
            else Raise (ValueError "invalid literal for int() with base 10")
        | _ => Raise (ValueError "invalid literal for int() with base 10")
        end
      else Ok 0
  end.

(** [AnomalyDetector.get_session_stats] *)
Definition get_session_stats `{Builtins} (now : Z) (session_id : string)
  : M session_stats :=
  let* (frozen, reason) := is_session_frozen now session_id in
  let* request_count := redis (cmd_get now (key_request_count session_id)) in
  let* identical_count := redis (cmd_get now (key_identical_count session_id)) in
  (* Get spending velocity *)
  let* recent_costs := redis (cmd_zrange_all now (key_spend_velocity session_id)) in
  let velocity := sum_scores recent_costs in
  let* requests := lift (int_or_zero request_count) in
  let* identical := lift (int_or_zero identical_count) in
  ret (mkStats frozen reason requests identical velocity
         max_requests_per_minute max_identical_requests velocity_threshold).

End Stats.

Export Stats.

(** ** Headers sent upstream ([OpenAIForwarder.forward_request]) *)

Module Headers.

(** [d[k] = v] on a dict kept in insertion order: an existing key keeps
    its place. *)
Fixpoint dict_set (k v : string) (d : list (string * string))
  : list (string * string) :=
  match d with
  | [] => [(k, v)]
  | (k', v') :: d' =>
      if String.eqb k' k then (k', v) :: d' else (k', v') :: dict_set k v d'
  end.

(** The headers of the caller that are not passed on. *)
Definition withheld (key_lower : string) : bool :=
  String.eqb key_lower "authorization"
  || String.eqb key_lower "host"
  || String.eqb key_lower "content-length".

(** The headers that [forward_request] sends: the gateway's own
    credentials and content type, then every header of the caller whose
    lower-cased name is not withheld. *)
Definition forward_headers (api_key : string) (headers : list (string * string))
  : list (string * string) :=
  fold_left
    (fun forward kv =>
       if withheld (lower (fst kv)) then forward
       else dict_set (fst kv) (snd kv) forward)
    headers
    [("Authorization", "Bearer " ++ api_key);
     ("Content-Type", "application/json")].

End Headers.

Export Headers.

(** ** Operator actions ([src/dashboard/routes.py], [tokengate_cli.py]) *)

Module Dashboard.

(** [s.split(sep)] for a separator of one character. *)
Fixpoint split_on (sep : ascii) (s : string) : list string :=
  match s with
  | EmptyString => [EmptyString]
  | String c s' =>
      if Ascii.eqb c sep then EmptyString :: split_on sep s'
      else
        match split_on sep s' with
        | h :: t => String c h :: t
        | [] => [String c EmptyString]
        end
  end.

(** [key.split(":")[1]]: the session that [get_sessions] and
    [get_stats], and [list_sessions] of the command-line tool, read a
    key as belonging to. *)
Definition session_of_key (key : string) : option string :=
  nth_error (split_on ":" key) 1.

(** The text holds a colon. *)
Fixpoint has_colon (s : string) : bool :=
  match s with
  | EmptyString => false
  | String c s' => Ascii.eqb c ":" || has_colon s'
  end.




End Dashboard.

Module Cli.

(** [TokenGateCLI.freeze_session]: the text stored as the end of the
    freeze is [datetime.utcnow().isoformat()], the instant of the call;
    both keys expire after an hour. The message written to the terminal
    on failure is not modelled. *)
Definition freeze_session (now : Z) (session_id reason : string) : M bool :=
  try_except
    (do* redis (cmd_setex now (key_frozen_until session_id) 3600 (RTime now)) in
     do* redis (cmd_setex now (key_freeze_reason session_id) 3600 (RText reason)) in
     ret true)
    (fun _ => ret false).

End Cli.

(** ** Further notions used by the statements of Part II *)

Module Notions.

(** All the keys that hold the state of a session: the anomaly keys and
    the two ledger keys. *)
Definition session_keys (sid : string) : list string :=
  (anomaly_keys sid ++ [_get_budget_key sid; _get_spent_key sid])%list.

(** The last two characters of a text, the last one first. *)
Definition last2 (s : string) : list ascii :=
  firstn 2 (rev (list_ascii_of_string s)).

(** The result is a rejection by the spending-velocity check. *)
Definition is_velocity_block (r : result (bool * option string)) : bool :=
  match r with
  | Ok (true, Some reason) => String.prefix "High spending velocity" reason
  | _ => false
  end.

(** The instant one minute before [now], as [check_anomalies] passes it
    to the store. *)
Definition one_minute_ago (now : Z) : float := timestamp (now - seconds 60).

(** A cost that the velocity window drops: between zero and the Unix
    time of one minute ago. *)
Definition dropped (now : Z) (score : float) : bool :=
  PrimFloat.leb 0 score && PrimFloat.leb score (one_minute_ago now).

(** Every cost kept under the velocity key of the session, if it holds
    a sorted set, is one that the window drops. *)
Definition velocity_dropped (now : Z) (sid : string) (s : gmap string entry) : Prop :=
  match lookup_live now (key_spend_velocity sid) s with
  | Some e =>
      match val e with
      | RZSet z => forallb (fun y => dropped now (snd y)) z = true
      | _ => True
      end
  | None => True
  end.

(** The sorted set that the engine finds under the velocity key: the
    stored set, or the empty one when the key is absent or has expired. *)
Definition velocity_is (now : Z) (sid : string) (s : gmap string entry)
  (z : list (Z * float)) : Prop :=
  match lookup_live now (key_spend_velocity sid) s with
  | Some e => val e = RZSet z
  | None => z = []
  end.


End Notions.

Export Notions.

(** ** Sample stores *)

Module Fixtures.

(** A world with the given store, a reachable store and an empty log. *)
Definition world_of (s : gmap string entry) : world :=
  mkWorld s 0 (fun _ => false) [].

(** Alice has a limit of 25.5 and has spent 6.5. *)
Definition ledger_world : world :=
  world_of (<[_get_budget_key "alice" := mkEntry (RNum (mkDec 255 (-1))) None]>
              (<[_get_spent_key "alice" := mkEntry (RNum (mkDec 65 (-1))) None]> ∅)).


(** Alice is frozen for another 100 seconds after [sample_instant]. *)
Definition frozen_world : world :=
  world_of (<[key_frozen_until "alice" :=
                mkEntry (RTime (sample_instant + seconds 100))
                        (Some (sample_instant + seconds 100))]>
              (<[key_freeze_reason "alice" :=
                   mkEntry (RText "Manual freeze")
                           (Some (sample_instant + seconds 100))]> ∅)).

(** Alice is frozen, and her request count of the window is 100. *)
Definition ceiling_world : world :=
  world_of (<[key_request_count "alice" :=
                mkEntry (RNum (mkDec 100 0)) (Some (sample_instant + seconds 30))]>
              (store frozen_world)).

(** A cost of 0.9 was recorded for Alice ten seconds before
    [sample_instant]. *)
Definition velocity_world : world :=
  world_of (<[key_spend_velocity "alice" :=
                mkEntry (RZSet [(sample_instant - seconds 10, 0.9%float)])
                        (Some (sample_instant + seconds 110))]> ∅).


End Fixtures.

Export Fixtures.

(* ===================================================================== *)
(** * Part II: properties                                                 *)
(* ===================================================================== *)

(** ** Pricing lookup *)

Module PricingFacts.

Lemma assoc_In {A} (k : string) (o : list (string * A)) (v : A) :
  assoc k o = Some v -> In (k, v) o.
Proof.
  induction o as [|[k' v'] o IH]; simpl; [discriminate|].
  destruct (String.eqb_spec k' k) as [->|Hne].
  - intros [= ->]. now left.
  - intros H. right. now apply IH.
Qed.

Lemma In_assoc {A} (k : string) (o : list (string * A)) (v : A) :
  List.NoDup (map fst o) -> In (k, v) o -> assoc k o = Some v.
Proof.
  induction o as [|[k' v'] o IH]; simpl; [tauto|].
  intros Hnd [Heq|Hin].
  - injection Heq as -> ->. now rewrite String.eqb_refl.
  - apply NoDup_cons_iff in Hnd as [Hnotin Hnd].
    destruct (String.eqb_spec k' k) as [->|Hne].
    + exfalso. apply Hnotin. change k with (fst (k, v)). now apply in_map.
    + now apply IH.
Qed.

Lemma assoc_None {A} (k : string) (o : list (string * A)) :
  ~ In k (map fst o) -> assoc k o = None.
Proof.
  induction o as [|[k' v'] o IH]; simpl; [reflexivity|].
  intros Hnot. destruct (String.eqb_spec k' k) as [->|Hne].
  - exfalso. apply Hnot. now left.
  - apply IH. intros Hin. apply Hnot. now right.
Qed.

Lemma find_first {A} (f : A -> bool) (pre : list A) (x : A) (post : list A) :
  (forall y, In y pre -> f y = false) -> f x = true ->
  find f (pre ++ x :: post)%list = Some x.
Proof.
  intros Hpre Hx. induction pre as [|y pre IH]; simpl.
  - now rewrite Hx.
  - rewrite (Hpre y) by now left. apply IH. intros z Hz. apply Hpre. now right.
Qed.

Lemma find_none {A} (f : A -> bool) (l : list A) :
  (forall y, In y l -> f y = false) -> find f l = None.
Proof.
  induction l as [|y l IH]; simpl; [reflexivity|].
  intros H. rewrite (H y) by now left. apply IH. intros z Hz. apply H. now right.
Qed.

(** C1, as stated, does not hold: with the key [gpt-4] listed before
    [gpt-4-turbo], the model [gpt-4-turbo-preview] is priced by [gpt-4],
    the first key that is a prefix, while the longest registered prefix
    is [gpt-4-turbo], whose prices differ. *)
Lemma get_pricing_is_not_longest_prefix :
  get_pricing turbo_catalog "gpt-4-turbo-preview" = Ok gpt4_price
  /\ spec_get_pricing turbo_catalog "gpt-4-turbo-preview" = Some turbo_price
  /\ gpt4_price <> turbo_price.
Proof.
  split; [reflexivity|]. split; [reflexivity|].
  intros H.
  assert (F : PrimFloat.eqb (price_or_zero (input gpt4_price))
                            (price_or_zero (input turbo_price)) = true)
    by (rewrite <- H; reflexivity).
  vm_compute in F. discriminate F.
Qed.

Lemma prefix_refl (s : string) : String.prefix s s = true.
Proof.
  induction s as [|c s IH]; simpl; [reflexivity|].
  destruct (ascii_dec c c); [exact IH|congruence].
Qed.

Lemma get_pricing_exact (prices : list (string * pricing)) (model : string) p :
  prices_wf prices -> In (model, p) prices -> get_pricing prices model = Ok p.
Proof.
  intros Hwf Hin. unfold get_pricing. now rewrite (In_assoc _ _ _ Hwf Hin).
Qed.

Lemma get_pricing_prefix (pre : list (string * pricing)) k p post (model : string) :
  ~ In model (map fst (pre ++ (k, p) :: post)%list) ->
  String.prefix k model = true ->
  (forall k', In k' (map fst pre) -> String.prefix k' model = false) ->
  get_pricing (pre ++ (k, p) :: post)%list model = Ok p.
Proof.
  intros Hnot Hk Hpre. unfold get_pricing.
  rewrite (assoc_None _ _ Hnot).
  rewrite (find_first _ pre (k, p) post); [reflexivity| |exact Hk].
  intros [k' p'] Hin. apply Hpre. change k' with (fst (k', p')). now apply in_map.
Qed.

Lemma get_pricing_unknown (prices : list (string * pricing)) (model : string) :
  (forall k, In k (map fst prices) -> String.prefix k model = false) ->
  get_pricing prices model = Raise (ValueError (not_found_message prices model)).
Proof.
  intros Hnone. unfold get_pricing.
  assert (Hnot : ~ In model (map fst prices)).
  { intros Hin. specialize (Hnone _ Hin). rewrite prefix_refl in Hnone. discriminate. }
  rewrite (assoc_None _ _ Hnot).
  rewrite find_none; [reflexivity|].
  intros [k p] Hin. apply Hnone. change k with (fst (k, p)). now apply in_map.
Qed.

(** C1 (amended): [get_pricing] returns the entry of the requested model
    when it is a key of the catalog; otherwise it returns the entry of the
    first key, in catalog order, that is a prefix of the requested model
    name; so for every catalog and every model name that extends some
    registered key the lookup succeeds with the prices of such a key. When
    no key is a prefix it raises [ValueError]. *)
Theorem get_pricing_first_prefix (prices : list (string * pricing)) (model : string) :
  (forall p, prices_wf prices -> In (model, p) prices ->
             get_pricing prices model = Ok p)
  /\ (forall (pre : list (string * pricing)) k p post,
        prices = (pre ++ (k, p) :: post)%list ->
        ~ In model (map fst prices) ->
        String.prefix k model = true ->
        (forall k', In k' (map fst pre) -> String.prefix k' model = false) ->
        get_pricing prices model = Ok p)
  /\ ((forall k, In k (map fst prices) -> String.prefix k model = false) ->
      get_pricing prices model = Raise (ValueError (not_found_message prices model))).
Proof.
  split; [|split].
  - intros p. apply get_pricing_exact.
  - intros pre k p post -> Hnot Hk Hpre. now apply get_pricing_prefix.
  - apply get_pricing_unknown.
Qed.

(** The amended rule at work: a dated variant resolves to its base model,
    and with two candidate keys the first one listed wins. *)
Lemma get_pricing_first_prefix_witness :
  get_pricing gpt4_catalog "gpt-4" = Ok gpt4_price
  /\ get_pricing turbo_catalog "gpt-4-0613" = Ok gpt4_price
  /\ get_pricing turbo_catalog "claude-3" =
       Raise (ValueError (not_found_message turbo_catalog "claude-3")).
Proof.
  split; [|split].
  - apply (proj1 (get_pricing_first_prefix gpt4_catalog "gpt-4")).
    + unfold prices_wf. simpl. constructor; [simpl; tauto|constructor].
    + simpl. now left.
  - apply (proj1 (proj2 (get_pricing_first_prefix turbo_catalog "gpt-4-0613"))
             [] "gpt-4" gpt4_price [("gpt-4-turbo", turbo_price)]).
    + reflexivity.
    + simpl. intros [H|[H|[]]]; discriminate H.
    + reflexivity.
    + simpl. tauto.
  - apply (proj2 (proj2 (get_pricing_first_prefix turbo_catalog "claude-3"))).
    simpl. intros k [<-|[<-|[]]]; reflexivity.
Defined.

End PricingFacts.

(** ** Cost estimation *)

Module CalculatorFacts.






End CalculatorFacts.

(** ** Decimal arithmetic *)

Module NumFacts.

Local Open Scope Q_scope.

Lemma pow10_Q_pos (e : Z) : 0 < Qpower 10 e.
Proof. apply Qpower_0_lt. reflexivity. Qed.

Lemma pow10_Q_plus (n m : Z) : Qpower 10 (n + m) == Qpower 10 n * Qpower 10 m.
Proof. apply Qpower_plus. discriminate. Qed.

(** Padding with zeros keeps the value. *)
Lemma dec_val_rescale (d : Decimal) (e : Z) :
  (e <= expo d)%Z -> dec_val (rescale d e) == dec_val d.
Proof.
  intros He. unfold dec_val, rescale. simpl coef. simpl expo.
  rewrite inject_Z_mult, Zpower_Qpower by lia.
  rewrite <- Qmult_assoc, <- pow10_Q_plus.
  now replace (expo d - e + e)%Z with (expo d) by lia.
Qed.







(** Comparison of Decimals is comparison of their values. *)
Lemma dec_cmp_scaled (a b : Decimal) :
  let e := Z.min (expo a) (expo b) in
  (coef (rescale b e) <= coef (rescale a e))%Z <-> dec_val b <= dec_val a.
Proof.
  intros e.
  rewrite <- (dec_val_rescale a e), <- (dec_val_rescale b e) by (unfold e; lia).
  unfold dec_val. simpl expo.
  rewrite Qmult_le_r by apply pow10_Q_pos.
  rewrite Zle_Qle. reflexivity.
Qed.


Lemma dec_gtb_spec (a b : Decimal) :
  dec_gtb a b = true <-> dec_val b < dec_val a.
Proof.
  pose proof (dec_cmp_scaled b a) as H. cbv zeta in H. rewrite Z.min_comm in H.
  unfold dec_gtb, dec_cmp.
  destruct (Z.compare_spec (coef (rescale a (Z.min (expo a) (expo b))))
                           (coef (rescale b (Z.min (expo a) (expo b)))))
    as [Heq|Hlt|Hgt]; split; intros Hyp; try discriminate; try reflexivity.
  - exfalso. apply (Qlt_not_le _ _ Hyp). apply H. lia.
  - exfalso. apply (Qlt_not_le _ _ Hyp). apply H. lia.
  - apply Qnot_le_lt. intros Hle. apply H in Hle. lia.
Qed.

(** [max(Decimal("0.0"), r)] is [r] when it is positive and zero
    otherwise. *)
Lemma dec_max_zero (r : Decimal) :
  dec_val (dec_max dec_zero r) == (if Qlt_le_dec 0 (dec_val r) then dec_val r else 0).
Proof.
  unfold dec_max. destruct (dec_gtb r dec_zero) eqn:E.
  - apply dec_gtb_spec in E. change (dec_val dec_zero) with (0 * Qpower 10 (-1)) in E.
    rewrite Qmult_0_l in E. destruct (Qlt_le_dec 0 (dec_val r)); [reflexivity|].
    exfalso. now apply (Qlt_not_le _ _ E).
  - destruct (Qlt_le_dec 0 (dec_val r)) as [Hlt|Hle].
    + assert (dec_gtb r dec_zero = true); [|congruence].
      apply dec_gtb_spec. change (dec_val dec_zero) with (0 * Qpower 10 (-1)).
      now rewrite Qmult_0_l.
    + unfold dec_val, dec_zero. simpl. ring.
Qed.

(** The rounding of the context at work: the exact difference
    [1E+29 - 1.0] has thirty-one digits and is rounded back to [1E+29]. *)
Example dec_sub_rounds :
  dec_sub (mkDec 1 29) (mkDec 10 (-1)) = mkDec (10 ^ 27) 2.
Proof. reflexivity. Qed.

End NumFacts.

(** ** The store and the monad *)

Module WorldFacts.

Lemma append_inj_l (a b c : string) : a ++ b = a ++ c -> b = c.
Proof.
  induction a as [|x a IH]; simpl; intros H; [exact H|].
  injection H as H. now apply IH.
Qed.

(** Keys of one owner with different suffixes differ. *)
Lemma key_suffix_ne (pre sid a b : string) :
  a <> b -> pre ++ sid ++ a <> pre ++ sid ++ b.
Proof. intros Hne H. apply Hne. now apply append_inj_l in H; apply append_inj_l in H. Qed.

Lemma budget_spent_ne (sid : string) : _get_budget_key sid <> _get_spent_key sid.
Proof. apply key_suffix_ne. discriminate. Qed.

(** The budget key of one session is not the spent key of another:
    the texts differ in their last character but one. *)


Lemma append_assoc_str (a b c : string) : ((a ++ b) ++ c = a ++ (b ++ c))%string.
Proof.
  induction a as [|x a IH]; [reflexivity|].
  change (String x ((a ++ b) ++ c) = String x (a ++ (b ++ c))).
  now rewrite IH.
Qed.



Lemma lookup_live_insert_eq now (k : string) e (s : gmap string entry) :
  lookup_live now k (<[k := e]> s) = if live now e then Some e else None.
Proof. unfold lookup_live. now rewrite lookup_insert_eq. Qed.

Lemma lookup_live_delete_ne now (k k' : string) (s : gmap string entry) :
  k' <> k -> lookup_live now k (delete k' s) = lookup_live now k s.
Proof. intros H. unfold lookup_live. now rewrite lookup_delete_ne. Qed.

Lemma lookup_live_delete_eq now (k : string) (s : gmap string entry) :
  lookup_live now k (delete k s) = None.
Proof. unfold lookup_live. now rewrite lookup_delete_eq. Qed.


Lemma lookup_live_absent now (k : string) (s : gmap string entry) :
  s !! k = None -> lookup_live now k s = None.
Proof. intros H. unfold lookup_live. now rewrite H. Qed.

(** A command sent to a reachable store acts on the store. *)
Lemma redis_reachable {A} (c : gmap string entry -> result A * gmap string entry)
  (w : world) :
  down w (ops w) = false ->
  redis c w = (fst (c (store w)),
               mkWorld (snd (c (store w))) (S (ops w)) (down w) (logs w)).
Proof. intros H. unfold redis. rewrite H. now destruct (c (store w)). Qed.

(** A command sent while the store is down raises and changes nothing. *)
Lemma redis_down {A} (c : gmap string entry -> result A * gmap string entry)
  (w : world) :
  down w (ops w) = true ->
  redis c w = (Raise ConnectionError,
               mkWorld (store w) (S (ops w)) (down w) (logs w)).
Proof. intros H. unfold redis. now rewrite H. Qed.

(** What GET returns for a numeral or a text. *)
Lemma cmd_get_absent now (k : string) (s : gmap string entry) :
  lookup_live now k s = None -> cmd_get now k s = (Ok None, s).
Proof. intros H. unfold cmd_get. now rewrite H. Qed.

Lemma cmd_get_time now (k : string) (s : gmap string entry) e t :
  lookup_live now k s = Some e -> val e = RTime t ->
  cmd_get now k s = (Ok (Some (RTime t)), s).
Proof. intros H Hv. unfold cmd_get. now rewrite H, Hv. Qed.

Lemma cmd_get_text now (k : string) (s : gmap string entry) e t :
  lookup_live now k s = Some e -> val e = RText t ->
  cmd_get now k s = (Ok (Some (RText t)), s).
Proof. intros H Hv. unfold cmd_get. now rewrite H, Hv. Qed.


(** *** Availability is not changed by running code *)









(** *** Footprints: the keys that code may write *)

Lemma frame_ret K {A} (P : result A -> Prop) (a : A) : frame K P (ret a).
Proof. intros w. now right. Qed.

Lemma frame_lift K {A} (P : result A -> Prop) (r : result A) : frame K P (lift r).
Proof. intros w. now right. Qed.

Lemma frame_raise K {A} (P : result A -> Prop) (e : exn) : frame K P (raise e).
Proof. intros w. now right. Qed.

Lemma frame_log K (P : result unit -> Prop) now sid model est dec it ot ac err :
  frame K P (log_request now sid model est dec it ot ac err).
Proof. intros w. now right. Qed.

Lemma frame_escape K {A} (P : result A -> Prop) (m : M A) :
  (forall w, P (fst (m w))) -> frame K P m.
Proof. intros H w. left. apply H. Qed.

Lemma frame_redis (K : string -> Prop) {A} (P : result A -> Prop)
  (c : gmap string entry -> result A * gmap string entry) :
  (forall s k, ~ K k -> snd (c s) !! k = s !! k) -> frame K P (redis c).
Proof.
  intros Hc w. right. intros k Hk. unfold redis.
  destruct (down w (ops w)); [reflexivity|].
  specialize (Hc (store w) k Hk). now destruct (c (store w)).
Qed.

Lemma frame_bind K {A B} (P : result B -> Prop) (m : M A) (k : A -> M B) :
  frame K (raises (fun e => P (Raise e))) m ->
  (forall a, frame K P (k a)) ->
  frame K P (bind m k).
Proof.
  intros Hm Hk w. unfold bind. specialize (Hm w).
  destruct (m w) as [[a|e] w1]; simpl in *.
  - destruct Hm as [[]|Hm]. destruct (Hk a w1) as [HP|Hf]; [now left|].
    right. intros k0 Hk0. now rewrite Hf, Hm.
  - destruct Hm as [HP|Hm]; [now left|now right].
Qed.

Lemma frame_try K {A} (P : result A -> Prop) (m : M A) (h : exn -> M A) :
  frame K (fun r => match r with Ok a => P (Ok a) | Raise _ => False end) m ->
  (forall e, frame K P (h e)) ->
  frame K P (try_except m h).
Proof.
  intros Hm Hh w. unfold try_except. specialize (Hm w).
  destruct (m w) as [[a|e] w1]; simpl in *.
  - destruct Hm as [HP|Hm]; [now left|now right].
  - destruct Hm as [[]|Hm]. destruct (Hh e w1) as [HP|Hf]; [now left|].
    right. intros k0 Hk0. now rewrite Hf, Hm.
Qed.


Lemma frame_run K {A} (P : result A -> Prop) (m : M A) (w : world) r w' :
  frame K P m -> m w = (r, w') -> ~ P r ->
  forall k, ~ K k -> store w' !! k = store w !! k.
Proof.
  intros Hf Hrun HnP. specialize (Hf w). rewrite Hrun in Hf. simpl in Hf.
  destruct Hf as [HP|Hf]; [contradiction|exact Hf].
Qed.

(** The commands write the key they are given. *)
Lemma cmd_get_frame now k' s (k : string) : snd (cmd_get now k' s) !! k = s !! k.
Proof.
  unfold cmd_get. destruct (lookup_live now k' s) as [e|]; [|reflexivity].
  now destruct (val e).
Qed.

Lemma cmd_set_frame k' v s (k : string) :
  k <> k' -> snd (cmd_set k' v s) !! k = s !! k.
Proof. intros H. simpl. now rewrite lookup_insert_ne. Qed.

Lemma cmd_setex_frame now k' ttl v s (k : string) :
  k <> k' -> snd (cmd_setex now k' ttl v s) !! k = s !! k.
Proof. intros H. simpl. now rewrite lookup_insert_ne. Qed.

Lemma cmd_delete_frame k' s (k : string) :
  k <> k' -> snd (cmd_delete k' s) !! k = s !! k.
Proof. intros H. simpl. now rewrite lookup_delete_ne. Qed.

Lemma cmd_incr_frame now k' s (k : string) :
  k <> k' -> snd (cmd_incr now k' s) !! k = s !! k.
Proof.
  intros H. unfold cmd_incr. destruct (lookup_live now k' s) as [e|].
  - destruct (val e); try reflexivity.
    destruct (_ && _); [simpl; now rewrite lookup_insert_ne|reflexivity].
  - simpl. now rewrite lookup_insert_ne.
Qed.

Lemma cmd_expire_frame now k' ttl s (k : string) :
  k <> k' -> snd (cmd_expire now k' ttl s) !! k = s !! k.
Proof.
  intros H. unfold cmd_expire. destruct (lookup_live now k' s) as [e|];
    [simpl; now rewrite lookup_insert_ne|reflexivity].
Qed.

Lemma cmd_zadd_frame now k' m x s (k : string) :
  k <> k' -> snd (cmd_zadd now k' m x s) !! k = s !! k.
Proof.
  intros H. unfold cmd_zadd. destruct (is_nan x); [reflexivity|].
  destruct (lookup_live now k' s) as [e|].
  - destruct (val e); try reflexivity. simpl. now rewrite lookup_insert_ne.
  - simpl. now rewrite lookup_insert_ne.
Qed.

Lemma cmd_zremrangebyscore_frame now k' lo hi s (k : string) :
  k <> k' -> snd (cmd_zremrangebyscore now k' lo hi s) !! k = s !! k.
Proof.
  intros H. unfold cmd_zremrangebyscore.
  destruct (lookup_live now k' s) as [e|]; [|reflexivity].
  destruct (val e); try reflexivity.
  destruct (filter _ z); simpl;
    [now rewrite lookup_delete_ne|now rewrite lookup_insert_ne].
Qed.

Lemma cmd_zrange_all_frame now k' s (k : string) :
  snd (cmd_zrange_all now k' s) !! k = s !! k.
Proof.
  unfold cmd_zrange_all. destruct (lookup_live now k' s) as [e|]; [|reflexivity].
  now destruct (val e).
Qed.

Lemma cmd_lpush_frame now k' x s (k : string) :
  k <> k' -> snd (cmd_lpush now k' x s) !! k = s !! k.
Proof.
  intros H. unfold cmd_lpush. destruct (lookup_live now k' s) as [e|].
  - destruct (val e); try reflexivity. simpl. now rewrite lookup_insert_ne.
  - simpl. now rewrite lookup_insert_ne.
Qed.

Lemma cmd_ltrim_head_frame now k' stop s (k : string) :
  k <> k' -> snd (cmd_ltrim_head now k' stop s) !! k = s !! k.
Proof.
  intros H. unfold cmd_ltrim_head. destruct (lookup_live now k' s) as [e|];
    [|reflexivity].
  destruct (val e); try reflexivity. simpl. now rewrite lookup_insert_ne.
Qed.

(** *** Running code backwards from its result *)

Lemma bind_ok {A B} (m : M A) (k : A -> M B) (w : world) b w' :
  bind m k w = (Ok b, w') ->
  exists a w1, m w = (Ok a, w1) /\ k a w1 = (Ok b, w').
Proof.
  unfold bind. destruct (m w) as [[a|e] w1]; [eauto|discriminate].
Qed.

Lemma redis_ok {A} (c : gmap string entry -> result A * gmap string entry)
  (w : world) a w' :
  redis c w = (Ok a, w') ->
  fst (c (store w)) = Ok a
  /\ store w' = snd (c (store w))
  /\ down w' = down w.
Proof.
  unfold redis. destruct (down w (ops w)); [discriminate|].
  destruct (c (store w)) as [r s']. intros [= -> <-]. auto.
Qed.

(** *** Tactics that walk through a computation *)

Ltac not_in_keys :=
  match goal with
  | H : ~ In ?k _ |- ?k <> _ =>
      let E := fresh in intros E; apply H; rewrite E; simpl; tauto
  end.

Ltac frame_cmd :=
  first
    [ apply cmd_get_frame
    | apply cmd_zrange_all_frame
    | apply cmd_set_frame; not_in_keys
    | apply cmd_setex_frame; not_in_keys
    | apply cmd_delete_frame; not_in_keys
    | apply cmd_incr_frame; not_in_keys
    | apply cmd_expire_frame; not_in_keys
    | apply cmd_zadd_frame; not_in_keys
    | apply cmd_zremrangebyscore_frame; not_in_keys
    | apply cmd_lpush_frame; not_in_keys
    | apply cmd_ltrim_head_frame; not_in_keys ].

Ltac frame_step :=
  first
    [ apply frame_ret | apply frame_raise | apply frame_lift | apply frame_log
    | apply frame_bind; [|intros]
    | apply frame_try; [|intros]
    | apply frame_redis; intros ? ? ?; frame_cmd
    | match goal with
      | |- frame _ _ (if ?b then _ else _) => destruct b
      | |- frame _ _ (match ?x with _ => _ end) => destruct x
      end ].


Ltac run_inv :=
  match goal with
  | H : ret _ _ = (_, _) |- _ =>
      unfold ret in H; first [discriminate H | injection H; intros; subst]
  | H : bind _ _ _ = (Ok _, _) |- _ =>
      let a := fresh "a" in let w := fresh "w" in let R := fresh "R" in
      apply bind_ok in H as (a & w & R & H)
  | H : redis _ _ = (Ok _, _) |- _ =>
      let Hr := fresh "Hr" in let Hs := fresh "Hs" in let Hd := fresh "Hd" in
      apply redis_ok in H as (Hr & Hs & Hd)
  | H : (if ?b then _ else _) _ = (_, _) |- _ => destruct b eqn:?
  | H : (match ?x with _ => _ end) _ = (_, _) |- _ => destruct x eqn:?
  end.

Ltac frame_rw_at k :=
  repeat
    (try match goal with
         | H : store ?w = _ |- context [store ?w !! k] => rewrite H
         end;
     first
       [ rewrite cmd_get_frame
       | rewrite cmd_zrange_all_frame
       | rewrite cmd_set_frame by assumption
       | rewrite cmd_setex_frame by assumption
       | rewrite cmd_delete_frame by assumption
       | rewrite cmd_incr_frame by assumption
       | rewrite cmd_expire_frame by assumption
       | rewrite cmd_zadd_frame by assumption
       | rewrite cmd_zremrangebyscore_frame by assumption
       | rewrite cmd_lpush_frame by assumption
       | rewrite cmd_ltrim_head_frame by assumption ]).

(** *** Store failures that are not caught *)

Lemma surfaces_ret {A} (a : A) : surfaces (ret a).
Proof. intros w. cbn. split; [reflexivity|split; [lia|intros; lia]]. Qed.

Lemma surfaces_raise {A} (e : exn) : surfaces (@raise A e).
Proof. intros w. cbn. split; [reflexivity|split; [lia|intros; lia]]. Qed.

Lemma surfaces_lift {A} (r : result A) : surfaces (lift r).
Proof. intros w. cbn. split; [reflexivity|split; [lia|intros; lia]]. Qed.

Lemma surfaces_log now sid model est dec it ot ac err :
  surfaces (log_request now sid model est dec it ot ac err).
Proof. intros w. cbn. split; [reflexivity|split; [lia|intros; lia]]. Qed.

Lemma surfaces_redis {A} (c : gmap string entry -> result A * gmap string entry) :
  surfaces (redis c).
Proof.
  intros w. unfold redis. destruct (down w (ops w)) eqn:Hd.
  - cbn. split; [reflexivity|split; [lia|reflexivity]].
  - destruct (c (store w)) as [r s']. cbn. split; [reflexivity|split; [lia|]].
    intros n Hn Hdn. assert (n = ops w) as -> by lia. congruence.
Qed.

Lemma surfaces_bind {A B} (m : M A) (k : A -> M B) :
  surfaces m -> (forall a, surfaces (k a)) -> surfaces (bind m k).
Proof.
  intros Hm Hk w. unfold bind. destruct (Hm w) as (Hd & Ho & Hf).
  destruct (m w) as [[a|e] w1]; cbn [fst snd] in *.
  - destruct (Hk a w1) as (Hd' & Ho' & Hf').
    split; [congruence|split; [lia|]].
    intros n Hn Hdn.
    destruct (Nat.lt_ge_cases n (ops w1)) as [Hlt|Hge].
    + specialize (Hf n (conj (proj1 Hn) Hlt) Hdn). discriminate Hf.
    + apply (Hf' n); [lia|]. now rewrite Hd.
  - split; [assumption|split; [assumption|]].
    intros n Hn Hdn. specialize (Hf n Hn Hdn). now injection Hf as ->.
Qed.

Ltac surfaces_step :=
  first
    [ apply surfaces_ret | apply surfaces_raise | apply surfaces_lift
    | apply surfaces_log | apply surfaces_redis
    | apply surfaces_bind; [|intros]
    | match goal with
      | |- surfaces (if ?b then _ else _) => destruct b
      | |- surfaces (match ?x with _ => _ end) => destruct x
      | |- surfaces (let '(_, _) := ?x in _) => destruct x
      end ].

End WorldFacts.

(** ** Budget ledger *)

Module BudgetFacts.

Import WorldFacts NumFacts.











Lemma get_budget_total (now : Z) (sid : string) (w : world) :
  exists b w', get_budget now sid w = (Ok b, w').
Proof.
  unfold get_budget, try_except, bind, redis, ret, lift.
  destruct (down w (ops w)); [eauto|].
  destruct (cmd_get now (_get_budget_key sid) (store w)) as [[[v|]|e] s']; eauto.
  destruct (float_of_text v); eauto.
Qed.

Lemma get_spent_total (now : Z) (sid : string) (w : world) :
  exists x w', get_spent now sid w = (Ok x, w').
Proof.
  unfold get_spent, try_except, bind, redis, ret, lift.
  destruct (down w (ops w)); [eauto|].
  destruct (cmd_get now (_get_spent_key sid) (store w)) as [[[v|]|e] s']; eauto.
  destruct (float_of_text v); eauto.
Qed.

Lemma get_budget_down (now : Z) (sid : string) (w : world) :
  down w (ops w) = true ->
  get_budget now sid w = (Ok None, mkWorld (store w) (S (ops w)) (down w) (logs w)).
Proof.
  intros H. unfold get_budget, try_except, bind. now rewrite redis_down.
Qed.

Lemma get_spent_down (now : Z) (sid : string) (w : world) :
  down w (ops w) = true ->
  get_spent now sid w
  = (Ok 0%float, mkWorld (store w) (S (ops w)) (down w) (logs w)).
Proof.
  intros H. unfold get_spent, try_except, bind. now rewrite redis_down.
Qed.

Lemma get_budget_unset (now : Z) (sid : string) (w : world) :
  down w (ops w) = false -> store w !! _get_budget_key sid = None ->
  get_budget now sid w = (Ok None, mkWorld (store w) (S (ops w)) (down w) (logs w)).
Proof.
  intros H Hk. unfold get_budget, try_except, bind.
  rewrite redis_reachable by exact H.
  now rewrite cmd_get_absent by now apply lookup_live_absent.
Qed.

Lemma get_spent_unset (now : Z) (sid : string) (w : world) :
  down w (ops w) = false -> store w !! _get_spent_key sid = None ->
  get_spent now sid w
  = (Ok 0%float, mkWorld (store w) (S (ops w)) (down w) (logs w)).
Proof.
  intros H Hk. unfold get_spent, try_except, bind.
  rewrite redis_reachable by exact H.
  now rewrite cmd_get_absent by now apply lookup_live_absent.
Qed.

(** C10: for every session and every state of the store, reachable or
    not, [get_budget] and [get_spent] return a value: a failure of the
    store is answered with "not set" and with zero, so [get_budget_info]
    always returns, and what it returns while the store is down is what
    it returns for a session that has no budget and no spending. *)
Theorem budget_reads_never_raise (cfg : Settings) (now : Z) (sid : string)
  (w : world) :
  (exists b w', get_budget now sid w = (Ok b, w'))
  /\ (exists x w', get_spent now sid w = (Ok x, w'))
  /\ (exists i w', get_budget_info cfg now sid w = (Ok i, w'))
  /\ (down w (ops w) = true ->
      fst (get_budget now sid w) = Ok None
      /\ fst (get_spent now sid w) = Ok 0%float)
  /\ (down w (ops w) = true -> down w (S (ops w)) = true ->
      forall w0,
        reachable w0 ->
        store w0 !! _get_budget_key sid = None ->
        store w0 !! _get_spent_key sid = None ->
        fst (get_budget_info cfg now sid w) = fst (get_budget_info cfg now sid w0)).
Proof.
  split; [apply get_budget_total|]. split; [apply get_spent_total|].
  split; [|split].
  - unfold get_budget_info, bind.
    destruct (get_budget_total now sid w) as (b & w1 & ->).
    destruct (get_spent_total now sid w1) as (x & w2 & ->).
    unfold ret. eauto.
  - intros H. now rewrite get_budget_down, get_spent_down.
  - intros H1 H2 w0 Hreach Hb Hs.
    unfold get_budget_info, bind.
    rewrite get_budget_down by exact H1.
    rewrite get_spent_down by exact H2.
    rewrite get_budget_unset by (try apply Hreach; exact Hb).
    rewrite get_spent_unset by (try apply Hreach; exact Hs).
    reflexivity.
Qed.

(** With the store down, the report for a session that has spent 6.50 of
    25.50 is the report of a session that never did anything. *)
Lemma budget_reads_never_raise_witness :
  fst (get_budget_info settings 0 "alice"
         (mkWorld (<[_get_budget_key "alice" := mkEntry (RNum (mkDec 255 (-1))) None]>
                   (<[_get_spent_key "alice" := mkEntry (RNum (mkDec 65 (-1))) None]> ∅))
                  0 (fun _ => true) []))
  = fst (get_budget_info settings 0 "alice" fresh_world).
Proof.
  apply (proj2 (proj2 (proj2 (proj2
           (budget_reads_never_raise settings 0 "alice"
              (mkWorld (<[_get_budget_key "alice" := mkEntry (RNum (mkDec 255 (-1))) None]>
                        (<[_get_spent_key "alice" := mkEntry (RNum (mkDec 65 (-1))) None]> ∅))
                       0 (fun _ => true) [])))))).
  - reflexivity.
  - reflexivity.
  - intros n. reflexivity.
  - reflexivity.
  - reflexivity.
Defined.

End BudgetFacts.

(** ** Anomaly engine *)

Module AnomalyFacts.

Import WorldFacts.

Ltac key_ne :=
  unfold key_request_count, key_request_history, key_last_request_hash,
    key_identical_count, key_spend_velocity, key_frozen_until, key_freeze_reason;
  first [ apply key_suffix_ne; discriminate
        | let E := fresh in
          intros E; symmetry in E; revert E; apply key_suffix_ne; discriminate ].

Section Engine.

Context `{B : Builtins}.



(** *** The three outcomes of [is_session_frozen] *)

Lemma is_session_frozen_clear now sid (w : world) :
  reachable w ->
  lookup_live now (key_frozen_until sid) (store w) = None ->
  is_session_frozen now sid w
  = (Ok (false, None), mkWorld (store w) (1 + ops w) (down w) (logs w)).
Proof.
  intros Hreach Hf. unfold is_session_frozen, bind.
  rewrite redis_reachable by apply Hreach.
  now rewrite cmd_get_absent by exact Hf.
Qed.

Lemma is_session_frozen_held now sid (w : world) e er until reason :
  reachable w ->
  lookup_live now (key_frozen_until sid) (store w) = Some e ->
  val e = RTime until -> now < until ->
  lookup_live now (key_freeze_reason sid) (store w) = Some er ->
  val er = RText reason ->
  is_session_frozen now sid w
  = (Ok (true, Some reason), mkWorld (store w) (2 + ops w) (down w) (logs w)).
Proof.
  intros Hreach Hf Hv Hlt Hr Hrv. unfold is_session_frozen, bind.
  rewrite redis_reachable by apply Hreach.
  rewrite (cmd_get_time _ _ _ _ _ Hf Hv). cbn [fst snd text_truthy lift fromisoformat].
  destruct (Z.ltb_spec now until); [|lia].
  rewrite redis_reachable by (cbn [down ops]; apply Hreach). cbn [store].
  rewrite (cmd_get_text _ _ _ _ _ Hr Hrv). reflexivity.
Qed.

Lemma is_session_frozen_lapsed now sid (w : world) e until :
  reachable w ->
  lookup_live now (key_frozen_until sid) (store w) = Some e ->
  val e = RTime until -> until <= now ->
  is_session_frozen now sid w
  = (Ok (false, None),
     mkWorld (delete (key_freeze_reason sid) (delete (key_frozen_until sid) (store w)))
       (3 + ops w) (down w) (logs w)).
Proof.
  intros Hreach Hf Hv Hle. unfold is_session_frozen, bind.
  rewrite redis_reachable by apply Hreach.
  rewrite (cmd_get_time _ _ _ _ _ Hf Hv). cbn [fst snd text_truthy lift fromisoformat].
  destruct (Z.ltb_spec now until); [lia|].
  unfold _unfreeze_session, bind.
  rewrite redis_reachable by (cbn [down ops]; apply Hreach). cbn [store fst snd cmd_delete].
  rewrite redis_reachable by (cbn [down ops]; apply Hreach). reflexivity.
Qed.

(** *** A frozen session is rejected and nothing is written *)


(** *** The request counter *)

(** The count that a request finds: zero when the key is absent or has
    expired. *)
Lemma cmd_incr_expire now (k : string) (s : gmap string entry) c :
  counter_is now k s c -> c < int64_max ->
  cmd_incr now k s
  = (Ok (c + 1),
     <[k := mkEntry (RNum (mkDec (c + 1) 0))
              (match lookup_live now k s with
               | Some e => expire_at e | None => None end)]> s)
  /\ forall ttl,
     cmd_expire now k ttl (snd (cmd_incr now k s))
     = (Ok true, <[k := mkEntry (RNum (mkDec (c + 1) 0)) (Some (now + seconds ttl))]> s).
Proof.
  unfold counter_is, cmd_incr. intros Hc Hmax.
  destruct (lookup_live now k s) as [e|] eqn:E.
  - destruct Hc as (Hv & Hmin). rewrite Hv. simpl.
    destruct (Z.leb_spec int64_min c); [|lia].
    destruct (Z.ltb_spec c int64_max); [|lia]. simpl.
    split; [reflexivity|]. intros ttl. unfold cmd_expire.
    rewrite lookup_live_insert_eq.
    assert (Hl : live now (mkEntry (RNum (mkDec (c + 1) 0)) (expire_at e)) = true).
    { unfold lookup_live in E. destruct (s !! k) as [e'|]; [|discriminate].
      destruct (live now e') eqn:L; [|discriminate]. now injection E as ->. }
    rewrite Hl. simpl. now rewrite insert_insert_eq.
  - subst c. simpl. split; [reflexivity|]. intros ttl. unfold cmd_expire.
    rewrite lookup_live_insert_eq. simpl. now rewrite insert_insert_eq.
Qed.


(** *** A request that trips the rate limit *)


(** *** A request that is admitted *)


(** *** Runs of requests *)







Lemma lookup_live_expired now (k : string) (s : gmap string entry) v ex :
  s !! k = Some (mkEntry v (Some ex)) -> ex < now -> lookup_live now k s = None.
Proof.
  intros H Hlt. unfold lookup_live, live. rewrite H. cbn [expire_at].
  destruct (Z.leb_spec now ex); [lia|reflexivity].
Qed.

Lemma lookup_live_current now (k : string) (s : gmap string entry) v ex :
  s !! k = Some (mkEntry v (Some ex)) -> now <= ex ->
  lookup_live now k s = Some (mkEntry v (Some ex)).
Proof.
  intros H Hle. unfold lookup_live, live. rewrite H. cbn [expire_at].
  destruct (Z.leb_spec now ex); [reflexivity|lia].
Qed.


(** Whatever a request of a session that is not frozen leads to, it
    leaves the counter with an expiry of 60 seconds from now, also when
    the key was there with an earlier expiry. *)
Lemma counter_expiry_is_refreshed now sid model messages max_tokens cost
  (w : world) c ex :
  reachable w ->
  lookup_live now (key_frozen_until sid) (store w) = None ->
  store w !! key_request_count sid = Some (mkEntry (RNum (mkDec c 0)) (Some ex)) ->
  now <= ex -> int64_min <= c < int64_max ->
  store (snd (check_anomalies now sid model messages max_tokens cost w))
    !! key_request_count sid
  = Some (mkEntry (RNum (mkDec (c + 1) 0)) (Some (now + seconds 60))).
Proof.
  intros Hreach Hf Hk Hlive [Hmin Hmax].
  assert (Hc : counter_is now (key_request_count sid) (store w) c).
  { unfold counter_is. rewrite (lookup_live_current _ _ _ _ _ Hk Hlive). auto. }
  destruct (cmd_incr_expire now _ _ _ Hc Hmax) as [Hincr Hexp].
  rewrite Hincr in Hexp. cbn [snd] in Hexp.
  unfold check_anomalies. unfold bind at 1.
  rewrite (is_session_frozen_clear _ _ _ Hreach Hf). cbn iota beta.
  unfold bind at 1.
  rewrite redis_reachable by (cbn [down ops]; apply Hreach). cbn [store].
  rewrite Hincr. cbn [fst snd]. unfold bind at 1.
  rewrite redis_reachable by (cbn [down ops]; apply Hreach). cbn [store].
  rewrite (Hexp 60). cbn [fst snd].
  match goal with
  | |- store (snd (?m ?w3)) !! _ = _ =>
      assert (F : frame (fun k => In k [key_request_history sid;
                                        key_last_request_hash sid;
                                        key_identical_count sid;
                                        key_spend_velocity sid;
                                        key_frozen_until sid;
                                        key_freeze_reason sid])
                    (fun _ => False) m);
      [|destruct (F w3) as [[]|F']; rewrite F']
  end.
  - destruct (max_requests_per_minute <? c + 1);
      unfold _freeze_session, _log_request; repeat frame_step.
  - cbn [store]. apply lookup_insert_eq.
  - simpl. intros [E|[E|[E|[E|[E|[E|[]]]]]]]; revert E; key_ne.
Qed.

End Engine.

(** The engine catches nothing: a failed store command ends the check
    with the connection error. *)
Lemma check_anomalies_surfaces `{Builtins} now sid model messages max_tokens cost :
  surfaces (check_anomalies now sid model messages max_tokens cost).
Proof.
  unfold check_anomalies, is_session_frozen, _freeze_session, _unfreeze_session,
    _log_request.
  repeat surfaces_step.
Qed.


(** 101 requests half a second apart, three more within the next five
    minutes, and a read of the freeze state 300 seconds after the
    rejection. *)
Lemma counter_expiry_is_refreshed_witness :
  let w := snd (check_anomalies (H:=sample_builtins) sample_instant "alice" "gpt-4"
                  (Some [JStr "hello"]) (Some 16) 0 fresh_world) in
  store (snd (check_anomalies (H:=sample_builtins) (sample_instant + seconds 59)
                "alice" "gpt-3.5-turbo" (Some [JStr "hello"]) (Some 16) 0 w))
    !! key_request_count "alice"
  = Some (mkEntry (RNum (mkDec 2 0)) (Some (sample_instant + seconds 119))).
Proof.
  intros w.
  refine (counter_expiry_is_refreshed (B:=sample_builtins)
            (sample_instant + seconds 59) "alice" "gpt-3.5-turbo"
            (Some [JStr "hello"]) (Some 16) 0 w 1 (sample_instant + seconds 60)
            _ _ _ _ _).
  - intros n. reflexivity.
  - vm_compute. reflexivity.
  - vm_compute. reflexivity.
  - vm_compute. discriminate.
  - vm_compute. split; [discriminate|reflexivity].
Defined.


(** C2 fails on the code: of four identical requests sent by a fresh
    session one second apart, the third, which the claim says is
    rejected, is let through; it is the fourth that is rejected, with a
    reason that counts three. The streak counts the repeats of a request,
    not the requests; a different request in between removes it. *)
Theorem third_identical_request_is_admitted :
  fst (@run_calls sample_builtins "alice" (identical_calls 4 sample_instant) fresh_world)
  = [Ok (false, None); Ok (false, None); Ok (false, None);
     Ok (true, Some "Loop detected: 3 identical requests")]
  /\ store (snd (@run_calls sample_builtins "alice"
                   (identical_calls 3 sample_instant) fresh_world))
       !! key_identical_count "alice"
     = Some (mkEntry (RNum (mkDec 2 0)) (Some (sample_instant + seconds 302)))
  /\ store (snd (@run_calls sample_builtins "alice"
                   (identical_calls 3 sample_instant
                    ++ [mkCall (sample_instant + seconds 3) "gpt-3.5-turbo" None None])%list
                   fresh_world))
       !! key_identical_count "alice"
     = None.
Proof. vm_compute. repeat split; reflexivity. Qed.

(** C3 fails on the code: the expiry of the request counter is set anew
    by every request. Requests at 0, 59 and 100 seconds are counted
    1, 2, 3, the counter then expiring at 160 seconds, although the key
    was created at 0 seconds with an expiry of 60; and 101 requests sent
    30 seconds apart, over 50 minutes, end with a rejection for
    "101 requests in 1 minute". *)
Theorem request_window_is_extended :
  store (snd (@run_calls sample_builtins "alice"
                [mkCall sample_instant "gpt-4" None None] fresh_world))
    !! key_request_count "alice"
  = Some (mkEntry (RNum (mkDec 1 0)) (Some (sample_instant + seconds 60)))
  /\ store (snd (@run_calls sample_builtins "alice"
                   [mkCall sample_instant "gpt-4" None None;
                    mkCall (sample_instant + seconds 59) "gpt-3.5-turbo" None None;
                    mkCall (sample_instant + seconds 100) "gpt-4" None None]
                   fresh_world))
       !! key_request_count "alice"
     = Some (mkEntry (RNum (mkDec 3 0)) (Some (sample_instant + seconds 160)))
  /\ last (fst (@run_calls sample_builtins "alice"
                  (paced_calls (seconds 30) 101 sample_instant) fresh_world))
     = Some (Ok (true, Some "Rate limit exceeded: 101 requests in 1 minute")).
Proof. vm_compute. repeat split; reflexivity. Qed.

End AnomalyFacts.

(** ** Admission pipeline *)

Module RouterFacts.

Import WorldFacts AnomalyFacts.

Section Pipeline.

Context `{B : Builtins}.

(** *** What the pipeline may write *)







(** *** After a successful upstream answer *)







(** An exception of the anomaly check leaves [process_request]. *)
Lemma process_request_check_raises cfg prices now req vf u w b sid e :
  reaches_checks cfg req vf b sid ->
  fst (check_anomalies now sid (model_of b) (body_messages b) (body_max_tokens b) 0 w)
  = Raise e ->
  fst (process_request cfg prices now req vf u w) = Raise e.
Proof.
  intros (Hj & Hv & Hsid) Hc. unfold process_request. rewrite Hj.
  assert (Hvalid : match vf with
                   | Some validate =>
                       let '(is_valid, error_msg) := validate b in
                       if is_valid then None else Some error_msg
                   | None => None
                   end = None).
  { destruct vf as [validate|]; [|reflexivity].
    destruct (validate b) as [[|] msg]; [reflexivity|discriminate Hv]. }
  rewrite Hvalid, Hsid. fold (model_of b). unfold admission, bind.
  destruct (check_anomalies now sid (model_of b) (body_messages b)
              (body_max_tokens b) 0 w) as [[v|e'] w1]; [discriminate Hc|].
  cbn [fst] in *. congruence.
Qed.



(** C9. A store command that fails during the anomaly check ends
    [check_anomalies] with the connection error (the engine neither
    retries nor catches), and [process_request] does not catch it
    either: the request ends with that exception, not with a response. *)
Theorem anomaly_store_failure_escapes cfg prices now req vf u w b sid n :
  reaches_checks cfg req vf b sid ->
  let check := check_anomalies now sid (model_of b) (body_messages b)
                 (body_max_tokens b) 0 w in
  (ops w <= n < ops (snd check))%nat ->
  down w n = true ->
  fst check = Raise ConnectionError
  /\ fst (process_request cfg prices now req vf u w) = Raise ConnectionError.
Proof.
  intros Hreq check Hn Hdn.
  assert (Hc : fst check = Raise ConnectionError).
  { destruct (check_anomalies_surfaces now sid (model_of b) (body_messages b)
                (body_max_tokens b) 0 w) as (_ & _ & Hf).
    exact (Hf n Hn Hdn). }
  split; [exact Hc|].
  now apply (process_request_check_raises cfg prices now req vf u w b sid).
Qed.

End Pipeline.


Lemma anomaly_store_failure_escapes_witness :
  fst (check_anomalies (H:=sample_builtins) sample_instant "alice" "gpt-4"
         (Some [JStr "hello"]) (Some 16) 0 (down_from 0))
  = Raise ConnectionError
  /\ fst (chat_completions (H:=sample_builtins) settings gpt4_catalog
            sample_instant sample_request (answered sample_answer) (down_from 0))
     = Raise ConnectionError.
Proof.
  refine (anomaly_store_failure_escapes (B:=sample_builtins) settings gpt4_catalog
            sample_instant sample_request (Some validate_chat_completion_request)
            (answered sample_answer) (down_from 0)
            (mkBody (Some "gpt-4") (Some [JStr "hello"]) (Some 16) None)
            "alice" 0%nat _ _ _).
  - repeat split.
  - vm_compute. lia.
  - reflexivity.
Defined.


(** A failed deduction after a successful answer, run: the caller gets
    the answer, the log gets the failure, the ledger gets nothing. *)
Example deduction_failure_is_logged :
  let out := chat_completions (H:=sample_builtins) settings gpt4_catalog
               sample_instant sample_request (answered sample_answer)
               (down_from 16) in
  fst out = Ok (mkResponse 200 sample_answer [("Content-Type", "application/json")])
  /\ map log_error (logs (snd out))
     = [Some "Failed to deduct cost: Failed to deduct cost for session alice: ConnectionError";
        None]
  /\ store (snd out) !! _get_spent_key "alice" = None.
Proof. vm_compute. repeat split. Qed.

End RouterFacts.

(** ** Catalog and calculator, continued *)

Module CatalogFacts.

Import PricingFacts.

(** X3. [has_model] answers whether some key of the catalog is a prefix
    of the model name (a key is a prefix of itself): exactly then
    [get_pricing] finds a price. *)
Theorem has_model_iff_prefix (prices : list (string * pricing)) (model : string) :
  has_model prices model = true
  <-> exists key p, In (key, p) prices /\ String.prefix key model = true.
Proof.
  unfold has_model, get_pricing. split.
  - destruct (assoc model prices) as [p|] eqn:Ha.
    + intros _. exists model, p. split; [now apply assoc_In|apply prefix_refl].
    + destruct (find _ prices) as [[key p]|] eqn:Hf; [|discriminate].
      intros _. apply List.find_some in Hf as [Hin Hp]. now exists key, p.
  - intros (key & p & Hin & Hp).
    destruct (assoc model prices) as [p'|]; [reflexivity|].
    destruct (find _ prices) as [kv|] eqn:Hf; [reflexivity|].
    apply (List.find_none _ _ Hf) in Hin. cbn in Hin. congruence.
Qed.

(** X4. The estimate for a known number of input tokens and a given
    [max_tokens] is the actual cost of a usage that reports these two
    counts: the two formulas agree, to the last bit and in their
    exceptions. *)
Theorem estimate_matches_actual `{Builtins} prices model (n m : Z) messages usage :
  usage_get usage "prompt_tokens" = JInt n ->
  usage_get usage "completion_tokens" = JInt m ->
  estimate_cost prices model (Some n) (Some m) messages
  = calculate_actual_cost prices model usage.
Proof.
  intros Hn Hm. unfold estimate_cost, calculate_actual_cost.
  rewrite Hn, Hm. destruct (pricing_or_fallback prices model) as [p|e]; [|reflexivity].
  cbn [rbind per_thousand].
  destruct (float_of_int n) as [x|e]; [|reflexivity]. cbn [rbind].
  destruct (float_of_int m) as [y|e]; reflexivity.
Qed.

End CatalogFacts.

(** ** Usage extraction *)

Module ResponsesFacts.

(** X5. [extract_usage_from_response]: a top-level usage entry is
    returned whatever the choices are; without one, absent or empty
    choices give [None], a first choice that is an object gives its usage
    entry or [None] (later choices are not looked at), and choices that
    are [null] raise [TypeError]. *)
Theorem usage_extraction_order (response_data : list (string * Json.json)) :
  (forall u, assoc "usage" response_data = Some u ->
     extract_usage_from_response response_data = Returns u)
  /\ (assoc "usage" response_data = None ->
      (assoc "choices" response_data = None
       \/ assoc "choices" response_data = Some (JList [])) ->
      extract_usage_from_response response_data = Returns JNull)
  /\ (forall first rest,
        assoc "usage" response_data = None ->
        assoc "choices" response_data = Some (JList (JObj first :: rest)) ->
        extract_usage_from_response response_data
        = Returns (match assoc "usage" first with Some u => u | None => JNull end))
  /\ (assoc "usage" response_data = None ->
      assoc "choices" response_data = Some JNull ->
      extract_usage_from_response response_data = RaisesTypeError).
Proof.
  unfold extract_usage_from_response. split; [|split; [|split]].
  - now intros u ->.
  - intros -> [->| ->]; reflexivity.
  - intros first rest -> ->. cbn [py_len length]. unfold usage_of_choice, usage_in, has_key.
    destruct (assoc "usage" first); reflexivity.
  - now intros -> ->.
Qed.

End ResponsesFacts.

(** ** Budget ledger, continued *)

Module LedgerFacts.

Import WorldFacts BudgetFacts.

Lemma float_max_nonneg (r : float) : PrimFloat.leb 0 (float_max 0 r) = true.
Proof.
  unfold float_max. destruct (PrimFloat.ltb 0 r) eqn:Hlt; [|reflexivity].
  rewrite ltb_spec in Hlt. rewrite leb_spec. unfold SFltb in Hlt. unfold SFleb.
  destruct (SFcompare (Prim2SF 0) (Prim2SF r)) as [[| |]|]; try discriminate.
  reflexivity.
Qed.

Lemma get_budget_reads now sid w :
  exists b, get_budget now sid w
            = (Ok b, mkWorld (store w) (S (ops w)) (down w) (logs w)).
Proof.
  unfold get_budget, try_except, bind, redis.
  destruct (down w (ops w)); [now eexists|].
  unfold cmd_get. destruct (lookup_live _ _ _) as [e|]; [|now eexists].
  destruct (val e) as [t|d|t|z|l]; cbn; try (now eexists).
  destruct (String.eqb t "nan"); [now eexists|].
  destruct (String.eqb t "inf"); [now eexists|].
  destruct (String.eqb t "-inf"); now eexists.
Qed.

Lemma get_spent_reads now sid w :
  exists x, get_spent now sid w
            = (Ok x, mkWorld (store w) (S (ops w)) (down w) (logs w)).
Proof.
  unfold get_spent, try_except, bind, redis.
  destruct (down w (ops w)); [now eexists|].
  unfold cmd_get. destruct (lookup_live _ _ _) as [e|]; [|now eexists].
  destruct (val e) as [t|d|t|z|l]; cbn; try (now eexists).
  destruct (String.eqb t "nan"); [now eexists|].
  destruct (String.eqb t "inf"); [now eexists|].
  destruct (String.eqb t "-inf"); now eexists.
Qed.

Lemma get_budget_info_reads (cfg : Settings) (now : Z) (sid : string) (w : world) :
  exists i,
    get_budget_info cfg now sid w
    = (Ok i, mkWorld (store w) (2 + ops w) (down w) (logs w))
    /\ info_remaining i = float_max 0 (info_budget i - info_spent i).
Proof.
  unfold get_budget_info. unfold bind at 1.
  destruct (get_budget_reads now sid w) as [b ->].
  unfold bind at 1.
  destruct (get_spent_reads now sid
              (mkWorld (store w) (S (ops w)) (down w) (logs w))) as [x ->].
  cbn [store ops down logs]. eexists. split; reflexivity.
Qed.

(** X6. [get_budget_info] is a pure read that always answers: for every
    state of the store, reachable or not, it returns after two commands
    without changing the store or the log, and the remaining amount it
    reports is [max(0.0, budget - spent)], which is never negative and
    never NaN. *)
Theorem budget_info_is_a_pure_read (cfg : Settings) (now : Z) (sid : string) (w : world) :
  exists i,
    get_budget_info cfg now sid w
    = (Ok i, mkWorld (store w) (2 + ops w) (down w) (logs w))
    /\ PrimFloat.leb 0 (info_remaining i) = true
    /\ info_remaining i = float_max 0 (info_budget i - info_spent i).
Proof.
  destruct (get_budget_info_reads cfg now sid w) as (i & Hrun & Hrem).
  exists i. split; [exact Hrun|]. split; [|exact Hrem].
  rewrite Hrem. apply float_max_nonneg.
Qed.

Lemma reset_session_run now sid w :
  down w (ops w) = false ->
  Budget.reset_session now sid w
  = (Ok true, mkWorld (delete (_get_spent_key sid) (delete (_get_budget_key sid) (store w)))
                (S (ops w)) (down w) (logs w)).
Proof.
  intros Hd. unfold Budget.reset_session, try_except, bind.
  rewrite redis_reachable by exact Hd. reflexivity.
Qed.

(** X7. After [reset_session] the session is as new: both ledger keys
    are gone, and [get_budget_info] reports the configured default
    budget and nothing spent, whatever the ledger held before. *)
Theorem reset_session_restores_defaults (cfg : Settings) (t now : Z) (sid : string)
  (w : world) :
  reachable w ->
  exists w',
    (do* Budget.reset_session t sid in get_budget_info cfg now sid) w
    = (Ok (mkInfo (default_budget cfg) 0 (float_max 0 (default_budget cfg - 0))), w')
    /\ store w' !! _get_budget_key sid = None
    /\ store w' !! _get_spent_key sid = None.
Proof.
  intros Hreach. unfold bind at 1. rewrite reset_session_run by apply Hreach.
  unfold get_budget_info. unfold bind at 1.
  rewrite get_budget_unset; cbn [store ops down logs]; [|apply Hreach|].
  2:{ rewrite lookup_delete_ne by (intros E; symmetry in E; now apply budget_spent_ne in E).
      apply lookup_delete_eq. }
  unfold bind at 1.
  rewrite get_spent_unset; cbn [store ops down logs]; [|apply Hreach|apply lookup_delete_eq].
  eexists. split; [reflexivity|]. cbn [store]. split.
  - rewrite lookup_delete_ne by (intros E; symmetry in E; now apply budget_spent_ne in E).
    apply lookup_delete_eq.
  - apply lookup_delete_eq.
Qed.






End LedgerFacts.

(** ** Keys and sessions *)

Module KeyFacts.

Import WorldFacts.

Lemma list_of_append (a b : string) :
  list_ascii_of_string (a ++ b)
  = (list_ascii_of_string a ++ list_ascii_of_string b)%list.
Proof.
  induction a as [|x a IH]; [reflexivity|].
  change (x :: list_ascii_of_string (a ++ b)
          = x :: (list_ascii_of_string a ++ list_ascii_of_string b)%list).
  now rewrite IH.
Qed.

Lemma list_of_inj (a b : string) :
  list_ascii_of_string a = list_ascii_of_string b -> a = b.
Proof.
  intros E. rewrite <- (string_of_list_ascii_of_string a),
              <- (string_of_list_ascii_of_string b). now rewrite E.
Qed.

(** Keys with the same suffix belong to the same session. *)
Lemma append_inj_r (a b s : string) : a ++ s = b ++ s -> a = b.
Proof.
  intros E. apply list_of_inj. apply (f_equal list_ascii_of_string) in E.
  rewrite !list_of_append in E. now apply app_inv_tail in E.
Qed.

(** Texts that are equal end alike. *)
Lemma last2_append (a s : string) :
  (2 <= String.length s)%nat -> last2 (a ++ s) = last2 s.
Proof.
  intros Hlen. unfold last2. rewrite list_of_append, rev_app_distr.
  rewrite firstn_app.
  assert (Hl : length (rev (list_ascii_of_string s)) = String.length s).
  { rewrite length_rev. clear. induction s as [|c s IH]; [reflexivity|].
    cbn. now rewrite IH. }
  rewrite Hl. replace (2 - String.length s)%nat with 0%nat by lia.
  cbn [firstn]. now rewrite app_nil_r.
Qed.

Lemma key_inj (pre a b s t : string) :
  (2 <= String.length s)%nat -> (2 <= String.length t)%nat ->
  pre ++ a ++ s = pre ++ b ++ t ->
  last2 s = last2 t /\ (s = t -> a = b).
Proof.
  intros Hs Ht E. apply append_inj_l in E. split.
  - rewrite <- (last2_append a s Hs), <- (last2_append b t Ht). now rewrite E.
  - intros ->. now apply append_inj_r in E.
Qed.


(** The keys of two sessions are disjoint. *)
Lemma session_keys_disjoint (sid sid' k : string) :
  sid <> sid' -> In k (session_keys sid') -> ~ In k (session_keys sid).
Proof.
  intros Hne Hin' Hin.
  unfold session_keys, anomaly_keys, key_request_count, key_request_history,
    key_last_request_hash, key_identical_count, key_spend_velocity,
    key_frozen_until, key_freeze_reason, _get_budget_key, _get_spent_key in *.
  cbn [app In] in Hin, Hin'.
  repeat match goal with H : _ \/ _ |- _ => destruct H as [H|H] end;
    try contradiction; subst k.
  all: try (match goal with
            | E : ?pre ++ ?a ++ ?s = ?pre ++ ?b ++ ?t |- _ =>
                destruct (key_inj pre a b s t) as [H1 H2];
                [cbn; lia | cbn; lia | exact E |];
                first [ discriminate H1 | (apply Hne; symmetry; now apply H2) | (apply Hne; now apply H2) ]
            end).
  all: try match goal with E : _ = _ |- _ => discriminate E end.
Qed.

End KeyFacts.

Module IsolationFacts.

Import WorldFacts AnomalyFacts RouterFacts KeyFacts.

(** What a queued command writes. *)
Lemma run_command_frame now c s (k : string) :
  match c with GET _ => True | SET k' _ | DEL k' => k <> k' end ->
  snd (run_command now c s) !! k = s !! k.
Proof.
  destruct c as [k'|k' v|k']; cbn [run_command cmd_set cmd_delete snd]; intros Hk.
  - apply cmd_get_frame.
  - now apply lookup_insert_ne.
  - now apply lookup_delete_ne.
Qed.

Lemma cmd_exec_frame now cs s (k : string) :
  Forall (fun c => match c with GET _ => True | SET k' _ | DEL k' => k <> k' end) cs ->
  snd (cmd_exec now cs s) !! k = s !! k.
Proof.
  unfold cmd_exec. intros Hcs. revert s.
  induction Hcs as [|c cs Hc _ IH]; intros s; [reflexivity|].
  cbn [run_commands].
  pose proof (run_command_frame now c s k Hc) as H1.
  destruct (run_command now c s) as [r s1]. cbn [snd] in H1.
  specialize (IH s1). destruct (run_commands now cs s1) as [rs s2].
  cbn [snd] in *. congruence.
Qed.

Ltac ledger_key :=
  match goal with
  | H : ~ In ?k _ |- ?k <> _ =>
      let E := fresh in intros E; apply H; rewrite E;
      unfold session_keys, anomaly_keys; cbn [app In]; tauto
  end.

Ltac exec_frame :=
  apply frame_redis; intros ? ? ?; apply cmd_exec_frame;
  repeat (constructor; [first [exact I | ledger_key]|]); constructor.

Lemma deduct_cost_frame cfg now sid c (P : result float -> Prop) :
  frame (fun k => In k (session_keys sid)) P (deduct_cost cfg now sid c).
Proof.
  unfold deduct_cost. apply frame_try; [|intros; apply frame_raise].
  apply frame_bind; [exec_frame|intros results].
  apply frame_bind; [apply frame_lift|intros bv].
  apply frame_bind; [apply frame_lift|intros sv].
  destruct bv as [v|].
  - repeat (apply frame_bind; [apply frame_lift|intros]).
    apply frame_bind; [exec_frame|intros; apply frame_ret].
  - repeat (apply frame_bind; [apply frame_lift|intros]).
    apply frame_bind; [exec_frame|intros; apply frame_ret].
Qed.

Lemma ledger_frames cfg now sid a :
  frame (fun k => In k (session_keys sid)) (fun _ => False) (set_budget sid a)
  /\ frame (fun k => In k (session_keys sid)) (fun _ => False) (check_budget cfg now sid a)
  /\ frame (fun k => In k (session_keys sid)) (fun _ => False) (deduct_cost cfg now sid a)
  /\ frame (fun k => In k (session_keys sid)) (fun _ => False) (Budget.reset_session now sid)
  /\ frame (fun k => In k (session_keys sid)) (fun _ => False) (get_budget_info cfg now sid).
Proof.
  repeat split.
  - unfold set_budget. apply frame_try; [|intros; apply frame_raise].
    apply frame_bind; [|intros; apply frame_ret].
    apply frame_redis. intros s k Hk. apply cmd_set_frame. ledger_key.
  - unfold check_budget. apply frame_try; [|intros; apply frame_raise].
    apply frame_bind; [apply frame_redis; intros; apply cmd_get_frame|intros [v|]].
    + apply frame_bind; [apply frame_ret|intros].
      apply frame_bind; [apply frame_redis; intros; apply cmd_get_frame|intros].
      repeat (apply frame_bind; [apply frame_lift|intros]). apply frame_ret.
    + apply frame_bind.
      * apply frame_bind; [|intros; apply frame_ret].
        apply frame_redis. intros s k Hk. apply cmd_set_frame. ledger_key.
      * intros. apply frame_bind; [apply frame_redis; intros; apply cmd_get_frame|intros].
        repeat (apply frame_bind; [apply frame_lift|intros]). apply frame_ret.
  - apply deduct_cost_frame.
  - unfold Budget.reset_session. apply frame_try; [|intros; apply frame_raise].
    apply frame_bind; [exec_frame|intros; apply frame_ret].
  - unfold get_budget_info, get_budget, get_spent.
    apply frame_bind; [|intros].
    + apply frame_try; [|intros; apply frame_ret].
      apply frame_bind; [apply frame_redis; intros; apply cmd_get_frame|intros [v|]].
      * apply frame_bind; [apply frame_lift|intros; apply frame_ret].
      * apply frame_ret.
    + apply frame_bind; [|intros; apply frame_ret].
      apply frame_try; [|intros; apply frame_ret].
      apply frame_bind; [apply frame_redis; intros; apply cmd_get_frame|intros [v|]].
      * apply frame_lift.
      * apply frame_ret.
Qed.

Section Pipeline.

Context `{B : Builtins}.





End Pipeline.

(** X11. [set_budget], [check_budget], [deduct_cost] and [reset_session]
    for one session leave the ledger and the anomaly keys of every other
    session as they were. *)
Theorem ledger_is_per_session cfg now (sid other k : string) (a : float) (w : world) :
  sid <> other ->
  In k (session_keys other) ->
  store (snd (set_budget sid a w)) !! k = store w !! k
  /\ store (snd (check_budget cfg now sid a w)) !! k = store w !! k
  /\ store (snd (deduct_cost cfg now sid a w)) !! k = store w !! k
  /\ store (snd (Budget.reset_session now sid w)) !! k = store w !! k.
Proof.
  intros Hne Hk.
  pose proof (session_keys_disjoint sid other k Hne Hk) as Hout.
  destruct (ledger_frames cfg now sid a) as (F1 & F2 & F3 & F4 & _).
  repeat split.
  - destruct (F1 w) as [[]|F]. now apply F.
  - destruct (F2 w) as [[]|F]. now apply F.
  - destruct (F3 w) as [[]|F]. now apply F.
  - destruct (F4 w) as [[]|F]. now apply F.
Qed.

End IsolationFacts.

(** ** Admission pipeline, continued *)

Module PipelineFacts.

Import WorldFacts BudgetFacts AnomalyFacts RouterFacts.

Section Pipeline.

Context `{B : Builtins}.




End Pipeline.

End PipelineFacts.

(** ** Anomaly engine, continued *)

Module VelocityFacts.

Import WorldFacts BudgetFacts AnomalyFacts RouterFacts.

Lemma zset_insert_all (P : Z * float -> bool) x z :
  P x = true -> forallb P z = true -> forallb P (zset_insert x z) = true.
Proof.
  intros Hx. induction z as [|y z IH]; cbn [zset_insert forallb]; intros Hz.
  - now rewrite Hx.
  - apply andb_true_iff in Hz as [Hy Hz].
    destruct (zset_before x y); cbn [forallb].
    + now rewrite Hx, Hy, Hz.
    + rewrite Hy. cbn [andb]. now apply IH.
Qed.

Lemma filter_all (P : Z * float -> bool) (Q : Z * float -> Prop)
  `{!forall y, Decision (Q y)} (z : list (Z * float)) :
  forallb P z = true -> forallb P (filter Q z) = true.
Proof.
  induction z as [|y z IH]; [auto|]. cbn [forallb].
  intros Hz. apply andb_true_iff in Hz as [Hy Hz].
  rewrite filter_cons. destruct (decide (Q y)); [|now apply IH].
  cbn [forallb]. rewrite Hy. now apply IH.
Qed.

Lemma filter_none (P : Z * float -> bool) (z : list (Z * float)) :
  forallb P z = true -> filter (fun y => negb (P y)) z = [].
Proof.
  induction z as [|y z IH]; [auto|]. cbn [forallb].
  intros Hz. apply andb_true_iff in Hz as [Hy Hz].
  rewrite filter_cons. destruct (decide _) as [Hn|_]; [|now apply IH].
  rewrite Hy in Hn. destruct Hn.
Qed.

(** The three velocity commands on a store: what is added is dropped
    with everything else. *)
Lemma velocity_commands now (k : string) (cost : float) (s s0 : gmap string entry) :
  s !! k = s0 !! k ->
  match lookup_live now k s0 with
  | Some e =>
      match val e with
      | RZSet z => forallb (fun y => dropped now (snd y)) z = true
      | _ => True
      end
  | None => True
  end ->
  dropped now cost = true ->
  fst (cmd_zadd now k now cost s) = Ok tt ->
  let s1 := snd (cmd_zadd now k now cost s) in
  let s2 := snd (cmd_zremrangebyscore now k 0 (one_minute_ago now) s1) in
  s2 !! k = None /\ fst (cmd_zrange_all now k s2) = Ok [].
Proof.
  intros Hk Hold Hcost Hadd s1 s2.
  assert (Hl : lookup_live now k s = lookup_live now k s0).
  { unfold lookup_live. now rewrite Hk. }
  rewrite <- Hl in Hold.
  assert (Hs2 : s2 !! k = None).
  { subst s2 s1. unfold cmd_zadd in *. destruct (is_nan cost); [discriminate|].
    destruct (lookup_live now k s) as [e|] eqn:El.
    - destruct (val e) as [| | |z|] eqn:Ev; try discriminate.
      cbn [snd]. unfold cmd_zremrangebyscore. rewrite lookup_live_insert_eq.
      assert (Hlive : live now (mkEntry (RZSet (zset_add now cost z)) (expire_at e)) = true).
      { unfold lookup_live in El. destruct (s !! k) as [e'|]; [|discriminate].
        destruct (live now e') eqn:L; [|discriminate]. now injection El as ->. }
      rewrite Hlive. cbn [val].
      rewrite (filter_none (fun y => PrimFloat.leb 0 (snd y)
                                     && PrimFloat.leb (snd y) (one_minute_ago now))).
      + cbn [snd]. apply lookup_delete_eq.
      + unfold zset_add. apply zset_insert_all; [exact Hcost|]. now apply filter_all.
    - cbn [snd]. unfold cmd_zremrangebyscore. rewrite lookup_live_insert_eq.
      cbn [live expire_at val].
      rewrite (filter_none (fun y => PrimFloat.leb 0 (snd y)
                                     && PrimFloat.leb (snd y) (one_minute_ago now))).
      + cbn [snd]. apply lookup_delete_eq.
      + cbn [forallb snd]. unfold dropped in Hcost. now rewrite Hcost. }
  split; [exact Hs2|].
  unfold cmd_zrange_all, lookup_live. now rewrite Hs2.
Qed.

Lemma cmd_expire_absent now (k : string) ttl (s : gmap string entry) :
  s !! k = None -> snd (cmd_expire now k ttl s) !! k = None.
Proof. intros H. unfold cmd_expire, lookup_live. now rewrite H. Qed.

Ltac lift_inv :=
  repeat match goal with
         | H : lift _ _ = (_, _) |- _ => unfold lift in H; injection H; intros; subst
         end.

(** The velocity commands of a run, related to the store the run began
    with. *)
Ltac velocity_inv w Hold Hcost :=
  match goal with
  | Hadd : fst (cmd_zadd ?now ?k ?now ?cost (store ?wa)) = Ok ?u,
    Hsa : store ?wb = snd (cmd_zadd ?now ?k ?now ?cost (store ?wa)),
    Hsr : store ?wc = snd (cmd_zremrangebyscore ?now ?k _ _ (store ?wb)) |- _ =>
      let Hk := fresh "Hk" in
      assert (Hk : store wa !! k = store w !! k) by (frame_rw_at k; reflexivity);
      destruct u;
      destruct (velocity_commands now k cost (store wa) (store w) Hk Hold Hcost Hadd)
        as [?Hgone ?Hrange];
      rewrite <- Hsa in Hgone, Hrange; unfold one_minute_ago in Hgone, Hrange;
      rewrite <- Hsr in Hgone, Hrange
  end.

Section Engine.
Context `{B : Builtins}.

(** X15. The spending-velocity check drops what it records: the cost is
    the score of the entry, and the entries whose score lies between 0
    and the Unix time of one minute ago are removed right after the
    insertion. So when the cost of the request and the costs already
    recorded lie in that range, the check never rejects the request,
    however much was spent in the last minute, and an admitted request
    leaves no velocity entry behind. *)
Theorem velocity_check_never_fires now sid model messages max_tokens cost (w : world) :
  velocity_dropped now sid (store w) ->
  dropped now cost = true ->
  is_velocity_block (fst (check_anomalies now sid model messages max_tokens cost w))
  = false
  /\ (admitted (fst (check_anomalies now sid model messages max_tokens cost w)) = true ->
      store (snd (check_anomalies now sid model messages max_tokens cost w))
        !! key_spend_velocity sid = None).
Proof.
  intros Hold Hcost.
  assert (Nvc : key_spend_velocity sid <> key_request_count sid) by key_ne.
  assert (Nvl : key_spend_velocity sid <> key_last_request_hash sid) by key_ne.
  assert (Nvi : key_spend_velocity sid <> key_identical_count sid) by key_ne.
  assert (Nvh : key_spend_velocity sid <> key_request_history sid) by key_ne.
  assert (Nvf : key_spend_velocity sid <> key_frozen_until sid) by key_ne.
  assert (Nvr : key_spend_velocity sid <> key_freeze_reason sid) by key_ne.
  destruct (check_anomalies now sid model messages max_tokens cost w) as [r w'] eqn:Hrun.
  cbn [fst snd]. split.
  - destruct r as [[[|] [reason|]]|e]; try reflexivity.
    cbn [is_velocity_block].
    destruct (String.prefix "High spending velocity" reason) eqn:Hp; [exfalso|reflexivity].
    unfold check_anomalies, is_session_frozen, _unfreeze_session, _freeze_session,
      _log_request in Hrun.
    repeat run_inv.
    all: try (vm_compute in Hp; discriminate Hp).
    all: lift_inv; velocity_inv w Hold Hcost.
    all: match goal with
         | Hr : fst (cmd_zrange_all _ _ (store ?wc)) = Ok ?a,
           Hz : fst (cmd_zrange_all _ _ (store ?wc)) = Ok [],
           Ht : PrimFloat.ltb velocity_threshold (sum_scores ?a) = true |- _ =>
             rewrite Hz in Hr; injection Hr as <-; vm_compute in Ht; discriminate Ht
         end.
  - intros Hadm. destruct r as [[[|] [reason|]]|e]; try discriminate Hadm.
    unfold check_anomalies, is_session_frozen, _unfreeze_session, _freeze_session,
      _log_request in Hrun.
    repeat run_inv.
    all: lift_inv; velocity_inv w Hold Hcost.
    all: frame_rw_at (key_spend_velocity sid).
    all: match goal with
         | H : store ?w1 = snd (cmd_expire _ ?k _ _) |- store ?w1 !! ?k = None =>
             rewrite H
         end.
    all: apply cmd_expire_absent.
    all: frame_rw_at (key_spend_velocity sid); assumption.
Qed.

End Engine.

End VelocityFacts.

Module HistoryFacts.

Import WorldFacts BudgetFacts AnomalyFacts RouterFacts.

Lemma history_commands now (k x : string) (s : gmap string entry) :
  fst (cmd_lpush now k x s) = Ok tt ->
  let s1 := snd (cmd_lpush now k x s) in
  let s2 := snd (cmd_ltrim_head now k 99 s1) in
  let s3 := snd (cmd_expire now k 3600 s2) in
  exists l,
    s3 !! k = Some (mkEntry (RList (x :: l)) (Some (now + seconds 3600)))
    /\ (length l <= 99)%nat.
Proof.
  intros Hpush s1 s2 s3. subst s3 s2 s1. unfold cmd_lpush in *.
  destruct (lookup_live now k s) as [e|] eqn:El.
  - destruct (val e) as [| | | |l0] eqn:Ev; try discriminate. cbn [snd].
    assert (Hlive : forall v, live now (mkEntry v (expire_at e)) = true).
    { intros v. unfold lookup_live in El. destruct (s !! k) as [e'|]; [|discriminate].
      destruct (live now e') eqn:L; [|discriminate]. now injection El as ->. }
    unfold cmd_ltrim_head. rewrite lookup_live_insert_eq, Hlive. cbn [val snd expire_at].
    unfold cmd_expire. rewrite lookup_live_insert_eq, Hlive. cbn [val snd].
    rewrite lookup_insert_eq. exists (firstn 99 l0). split; [reflexivity|].
    apply firstn_le_length.
  - cbn [snd]. unfold cmd_ltrim_head. rewrite lookup_live_insert_eq.
    cbn [live expire_at val snd].
    unfold cmd_expire. rewrite lookup_live_insert_eq. cbn [live expire_at val snd].
    rewrite lookup_insert_eq. exists []. split; [reflexivity|cbn; lia].
Qed.

Section Engine.
Context `{B : Builtins}.

(** X16. After every admitted request the history of the session holds
    the record of that request first, at most 100 records in all, and
    expires an hour later. *)
Theorem history_is_bounded now sid model messages max_tokens cost (w : world) :
  admitted (fst (check_anomalies now sid model messages max_tokens cost w)) = true ->
  exists older,
    store (snd (check_anomalies now sid model messages max_tokens cost w))
      !! key_request_history sid
    = Some (mkEntry
              (RList (json_dumps (JObj [("timestamp", JStr (isoformat now));
                                        ("model", JStr model);
                                        ("cost", JFloat cost)]) :: older))
              (Some (now + seconds 3600)))
    /\ (length older <= 99)%nat.
Proof.
  destruct (check_anomalies now sid model messages max_tokens cost w) as [r w'] eqn:Hrun.
  cbn [fst snd]. intros Hadm.
  destruct r as [[[|] [reason|]]|e]; try discriminate Hadm.
  unfold check_anomalies, is_session_frozen, _unfreeze_session, _freeze_session,
    _log_request in Hrun.
  repeat run_inv.
  all: match goal with
       | Hp : fst (cmd_lpush ?now ?k ?x (store ?wa)) = Ok ?u,
         Hs1 : store ?wb = snd (cmd_lpush ?now ?k ?x (store ?wa)),
         Hs2 : store ?wc = snd (cmd_ltrim_head ?now ?k 99 (store ?wb)),
         Hs3 : store ?wd = snd (cmd_expire ?now ?k 3600 (store ?wc)) |- _ =>
           destruct u;
           destruct (history_commands now k x (store wa) Hp) as (l & Hl & Hlen);
           rewrite <- Hs1, <- Hs2, <- Hs3 in Hl; now exists l
       end.
Qed.

End Engine.

End HistoryFacts.

(** ** Headers sent upstream *)

Module HeadersFacts.

Lemma lower_authorization : lower "Authorization" = "authorization".
Proof. reflexivity. Qed.

Lemma dict_set_other (k v k0 : string) (d : list (string * string)) :
  k <> k0 -> assoc k0 (dict_set k v d) = assoc k0 d.
Proof.
  intros Hne. induction d as [|[k' v'] d IH]; cbn [dict_set assoc].
  - destruct (String.eqb_spec k k0); [contradiction|reflexivity].
  - destruct (String.eqb_spec k' k) as [->|Hk]; cbn [assoc].
    + destruct (String.eqb_spec k k0); [contradiction|reflexivity].
    + now rewrite IH.
Qed.

Lemma dict_set_same (k v : string) (d : list (string * string)) :
  assoc k (dict_set k v d) = Some v.
Proof.
  induction d as [|[k' v'] d IH]; cbn [dict_set assoc].
  - now rewrite String.eqb_refl.
  - destruct (String.eqb_spec k' k) as [->|Hk]; cbn [assoc].
    + now rewrite String.eqb_refl.
    + destruct (String.eqb_spec k' k); [contradiction|exact IH].
Qed.

Lemma dict_set_keys (k v : string) (d : list (string * string)) (k0 v0 : string) :
  In (k0, v0) (dict_set k v d) -> k0 = k \/ In (k0, v0) d.
Proof.
  induction d as [|[k' v'] d IH]; cbn [dict_set In].
  - intros [[= <- <-]|[]]. now left.
  - destruct (String.eqb_spec k' k) as [->|Hk]; cbn [In].
    + intros [[= <- <-]|Hin]; [now left|right; now right].
    + intros [E|Hin]; [right; now left|].
      destruct (IH Hin) as [->|H]; [now left|right; now right].
Qed.

Lemma dict_set_fst (k v : string) (d : list (string * string)) (k0 : string) :
  In k0 (map fst (dict_set k v d)) -> k0 = k \/ In k0 (map fst d).
Proof.
  intros Hin. apply in_map_iff in Hin as ([k1 v1] & <- & Hin). cbn [fst].
  apply dict_set_keys in Hin as [->|Hin]; [now left|right].
  apply in_map_iff. now exists (k1, v1).
Qed.

Lemma dict_set_nodup (k v : string) (d : list (string * string)) :
  List.NoDup (map fst d) -> List.NoDup (map fst (dict_set k v d)).
Proof.
  induction d as [|[k' v'] d IH]; cbn [dict_set map fst]; intros Hd.
  - constructor; [intros []|constructor].
  - inversion Hd as [|? ? Hnot Hd']; subst.
    destruct (String.eqb_spec k' k) as [->|Hk]; cbn [map fst].
    + now constructor.
    + constructor; [|now apply IH].
      intros Hin. apply dict_set_fst in Hin as [->|Hin]; [now apply Hk|now apply Hnot].
Qed.

(** What holds of the headers built so far, at every step of the loop. *)
Lemma forward_headers_inv (bearer : string) (hs forward : list (string * string)) :
  assoc "Authorization" forward = Some bearer ->
  (forall k v, In (k, v) forward -> withheld (lower k) = true -> k = "Authorization") ->
  List.NoDup (map fst forward) ->
  let out := fold_left
               (fun forward kv =>
                  if withheld (lower (fst kv)) then forward
                  else dict_set (fst kv) (snd kv) forward) hs forward in
  assoc "Authorization" out = Some bearer
  /\ (forall k v, In (k, v) out -> withheld (lower k) = true -> k = "Authorization")
  /\ List.NoDup (map fst out).
Proof.
  revert forward. induction hs as [|[k v] hs IH]; intros forward Ha Hk Hd; cbn [fold_left].
  - now repeat split.
  - cbn [fst snd]. destruct (withheld (lower k)) eqn:Hw; [now apply IH|].
    apply IH; [| |now apply dict_set_nodup].
    + rewrite dict_set_other; [exact Ha|].
      intros ->. rewrite lower_authorization in Hw. discriminate Hw.
    + intros k0 v0 Hin Hw0. apply dict_set_keys in Hin as [->|Hin]; [congruence|].
      now apply (Hk k0 v0).
Qed.

Lemma forward_keeps (hs forward : list (string * string)) (k v : string) :
  assoc k forward = Some v -> ~ In k (map fst hs) ->
  assoc k (fold_left
             (fun forward kv =>
                if withheld (lower (fst kv)) then forward
                else dict_set (fst kv) (snd kv) forward) hs forward) = Some v.
Proof.
  revert forward. induction hs as [|[k' v'] hs IH]; intros forward Ha Hn; cbn [fold_left].
  - exact Ha.
  - cbn [map fst In] in Hn. cbn [fst snd]. apply IH; [|tauto].
    destruct (withheld (lower k')); [exact Ha|].
    rewrite dict_set_other; [exact Ha|]. intros ->. tauto.
Qed.

Lemma forward_passes (hs forward : list (string * string)) (k v : string) :
  List.NoDup (map fst hs) -> In (k, v) hs -> withheld (lower k) = false ->
  assoc k (fold_left
             (fun forward kv =>
                if withheld (lower (fst kv)) then forward
                else dict_set (fst kv) (snd kv) forward) hs forward) = Some v.
Proof.
  revert forward. induction hs as [|[k' v'] hs IH]; intros forward Hd Hin Hw;
    [destruct Hin|].
  cbn [map fst] in Hd. inversion Hd as [|? ? Hnot Hd']; subst.
  cbn [fold_left fst snd]. destruct Hin as [[= -> ->]|Hin].
  - rewrite Hw. apply forward_keeps; [apply dict_set_same|exact Hnot].
  - now apply IH.
Qed.

(** X17. The credentials of the caller are never sent upstream: the
    headers that [forward_request] builds carry the gateway's own
    [Authorization: Bearer <api key>] and no other header whose name is
    [authorization] in any letter case, no [host] and no
    [content-length] header; every other header of the caller is passed
    on with its value. *)
Theorem caller_credentials_are_never_forwarded (api_key : string)
  (headers : list (string * string)) :
  assoc "Authorization" (forward_headers api_key headers) = Some ("Bearer " ++ api_key)
  /\ (forall k v, In (k, v) (forward_headers api_key headers) ->
        lower k = "authorization" ->
        k = "Authorization" /\ v = "Bearer " ++ api_key)
  /\ (forall k v, In (k, v) (forward_headers api_key headers) ->
        lower k <> "host" /\ lower k <> "content-length")
  /\ (List.NoDup (map fst headers) ->
      forall k v, In (k, v) headers -> withheld (lower k) = false ->
        assoc k (forward_headers api_key headers) = Some v).
Proof.
  unfold forward_headers.
  destruct (forward_headers_inv ("Bearer " ++ api_key) headers
              [("Authorization", "Bearer " ++ api_key);
               ("Content-Type", "application/json")]) as (Ha & Hk & Hd).
  { reflexivity. }
  { intros k v [[= <- <-]|[[= <- <-]|[]]] Hw; [reflexivity|discriminate Hw]. }
  { repeat constructor; cbn; intuition discriminate. }
  split; [exact Ha|]. split; [|split].
  - intros k v Hin Hl.
    assert (Hkey : k = "Authorization").
    { apply (Hk k v Hin). unfold withheld. now rewrite Hl. }
    split; [exact Hkey|]. subst k.
    pose proof (PricingFacts.In_assoc _ _ _ Hd Hin) as Hv. congruence.
  - intros k v Hin. split; intros Hl.
    + assert (Hkey : k = "Authorization").
      { apply (Hk k v Hin). unfold withheld. now rewrite Hl. }
      subst k. discriminate Hl.
    + assert (Hkey : k = "Authorization").
      { apply (Hk k v Hin). unfold withheld. rewrite Hl. reflexivity. }
      subst k. discriminate Hl.
  - intros Hnd k v Hin Hw. now apply forward_passes.
Qed.

End HeadersFacts.

(** ** Operator actions *)

Module OperatorFacts.

Import WorldFacts BudgetFacts AnomalyFacts RouterFacts.

Lemma int_or_zero_counter now (k : string) (s : gmap string entry) c :
  counter_is now k s c ->
  cmd_get now k s = (Ok (option_map val (lookup_live now k s)), s)
  /\ int_or_zero (option_map val (lookup_live now k s)) = Ok c.
Proof.
  unfold counter_is, cmd_get. destruct (lookup_live now k s) as [e|].
  - intros [Hv _]. cbn [option_map]. rewrite Hv. split; reflexivity.
  - intros ->. split; reflexivity.
Qed.

Section Engine.
Context `{B : Builtins}.

(** The part of [get_session_stats] that follows the freeze check. *)
Lemma session_stats_counts now sid (w : world) frozen reason w1 c i z :
  is_session_frozen now sid w = (Ok (frozen, reason), w1) ->
  reachable w1 ->
  counter_is now (key_request_count sid) (store w1) c ->
  counter_is now (key_identical_count sid) (store w1) i ->
  velocity_is now sid (store w1) z ->
  get_session_stats now sid w
  = (Ok (mkStats frozen reason c i (sum_scores z)
           max_requests_per_minute max_identical_requests velocity_threshold),
     mkWorld (store w1) (3 + ops w1) (down w1) (logs w1)).
Proof.
  intros Hf Hreach Hc Hi Hz. unfold get_session_stats. unfold bind at 1. rewrite Hf.
  destruct (int_or_zero_counter _ _ _ _ Hc) as [Hgc Hic].
  destruct (int_or_zero_counter _ _ _ _ Hi) as [Hgi Hii].
  unfold bind at 1. rewrite redis_reachable by apply Hreach. rewrite Hgc. cbn [fst snd].
  unfold bind at 1. rewrite redis_reachable by (cbn [down ops]; apply Hreach).
  cbn [store]. rewrite Hgi. cbn [fst snd].
  unfold bind at 1. rewrite redis_reachable by (cbn [down ops]; apply Hreach).
  cbn [store].
  assert (Hr : cmd_zrange_all now (key_spend_velocity sid) (store w1) = (Ok z, store w1)).
  { unfold velocity_is in Hz. unfold cmd_zrange_all.
    destruct (lookup_live now (key_spend_velocity sid) (store w1)); now rewrite Hz. }
  rewrite Hr. cbn [fst snd]. unfold bind, lift. rewrite Hic, Hii. reflexivity.
Qed.

(** X18. [get_session_stats] reports what the engine would find: the
    request count and the count of identical requests that the next
    check would read (zero for an absent or expired key), the sum of the
    recorded costs, and whether the session is frozen and why; reading
    the statistics of a session that is not frozen, or is still frozen,
    changes nothing in the store. *)
Theorem session_stats_read_the_engine_state now sid (w : world) c i z :
  reachable w ->
  counter_is now (key_request_count sid) (store w) c ->
  counter_is now (key_identical_count sid) (store w) i ->
  velocity_is now sid (store w) z ->
  (lookup_live now (key_frozen_until sid) (store w) = None ->
   get_session_stats now sid w
   = (Ok (mkStats false None c i (sum_scores z)
            max_requests_per_minute max_identical_requests velocity_threshold),
      mkWorld (store w) (4 + ops w) (down w) (logs w)))
  /\ (forall e er until reason,
        lookup_live now (key_frozen_until sid) (store w) = Some e ->
        val e = RTime until -> now < until ->
        lookup_live now (key_freeze_reason sid) (store w) = Some er ->
        val er = RText reason ->
        get_session_stats now sid w
        = (Ok (mkStats true (Some reason) c i (sum_scores z)
                 max_requests_per_minute max_identical_requests velocity_threshold),
           mkWorld (store w) (5 + ops w) (down w) (logs w))).
Proof.
  intros Hreach Hc Hi Hz. split.
  - intros Hf.
    rewrite (session_stats_counts now sid w false None _ c i z
               (is_session_frozen_clear now sid w Hreach Hf)); auto.
  - intros e er until reason Hf Hv Hlt Hr Hrv.
    rewrite (session_stats_counts now sid w true (Some reason) _ c i z
               (is_session_frozen_held now sid w e er until reason Hreach Hf Hv Hlt Hr Hrv));
      auto.
Qed.


(** X20. A freeze set with the command-line tool does not hold: the
    tool stores the instant of the call as the end of the freeze, so
    [is_session_frozen] finds it lapsed at any later instant, answers
    that the session is not frozen and removes the key. *)
Theorem cli_freeze_is_lifted_at_once (t0 now : Z) (sid reason : string) (w : world) :
  reachable w ->
  t0 <= now ->
  let w1 := snd (Cli.freeze_session t0 sid reason w) in
  fst (Cli.freeze_session t0 sid reason w) = Ok true
  /\ store w1 !! key_frozen_until sid
     = Some (mkEntry (RTime t0) (Some (t0 + seconds 3600)))
  /\ fst (is_session_frozen now sid w1) = Ok (false, None)
  /\ lookup_live now (key_frozen_until sid) (store (snd (is_session_frozen now sid w1)))
     = None.
Proof.
  intros Hreach Hle w1.
  assert (Hrun : Cli.freeze_session t0 sid reason w
                 = (Ok true,
                    mkWorld (<[key_freeze_reason sid :=
                                 mkEntry (RText reason) (Some (t0 + seconds 3600))]>
                               (<[key_frozen_until sid :=
                                    mkEntry (RTime t0) (Some (t0 + seconds 3600))]>
                                  (store w)))
                      (2 + ops w) (down w) (logs w))).
  { unfold Cli.freeze_session, try_except, bind.
    rewrite redis_reachable by apply Hreach. cbn [fst snd cmd_setex].
    rewrite redis_reachable by (cbn [down ops]; apply Hreach). reflexivity. }
  subst w1. rewrite Hrun. cbn [fst snd].
  set (w1 := mkWorld _ _ _ _).
  assert (Hreach1 : reachable w1) by (intros n; apply Hreach).
  assert (Hkey : store w1 !! key_frozen_until sid
                 = Some (mkEntry (RTime t0) (Some (t0 + seconds 3600)))).
  { subst w1. cbn [store]. rewrite lookup_insert_ne by key_ne. apply lookup_insert_eq. }
  split; [reflexivity|]. split; [exact Hkey|].
  destruct (Z.le_gt_cases now (t0 + seconds 3600)) as [Hlive|Hdead].
  - pose proof (lookup_live_current now _ _ _ _ Hkey Hlive) as Hl.
    rewrite (is_session_frozen_lapsed now sid w1 _ t0 Hreach1 Hl eq_refl Hle).
    cbn [fst snd store]. split; [reflexivity|].
    rewrite lookup_live_delete_ne by key_ne. apply lookup_live_delete_eq.
  - assert (Hl : lookup_live now (key_frozen_until sid) (store w1) = None).
    { apply (lookup_live_expired _ _ _ _ _ Hkey). lia. }
    rewrite (is_session_frozen_clear now sid w1 Hreach1 Hl). cbn [fst snd store].
    split; [reflexivity|exact Hl].
Qed.

End Engine.

Lemma split_on_segment (a rest : string) :
  Dashboard.has_colon a = false ->
  Dashboard.split_on ":" (a ++ String ":" rest) = a :: Dashboard.split_on ":" rest.
Proof.
  induction a as [|c a IH]; intros Hc.
  - reflexivity.
  - cbn [Dashboard.has_colon] in Hc. apply orb_false_iff in Hc as [Hc Ha].
    change (String c a ++ String ":" rest) with (String c (a ++ String ":" rest)).
    cbn [Dashboard.split_on]. rewrite Hc, (IH Ha). reflexivity.
Qed.

(** X21. The session that the dashboard and the command-line tool read
    from a budget key is the session id itself when the id holds no
    colon; for an id [a:b] it is [a], the part before the first colon. *)
Theorem dashboard_reads_session_up_to_colon :
  (forall sid, Dashboard.has_colon sid = false ->
     Dashboard.session_of_key (_get_budget_key sid) = Some sid)
  /\ (forall a b, Dashboard.has_colon a = false ->
        Dashboard.session_of_key (_get_budget_key (a ++ ":" ++ b)) = Some a).
Proof.
  split.
  - intros sid Hc. unfold Dashboard.session_of_key, _get_budget_key.
    change ("session:" ++ sid ++ ":budget")
      with ("session" ++ String ":" (sid ++ String ":" "budget")).
    rewrite split_on_segment by reflexivity.
    now rewrite split_on_segment by exact Hc.
  - intros a b Hc. unfold Dashboard.session_of_key, _get_budget_key.
    change ("session:" ++ (a ++ ":" ++ b) ++ ":budget")
      with ("session" ++ String ":" ((a ++ String ":" b) ++ ":budget")).
    rewrite split_on_segment by reflexivity.
    rewrite append_assoc_str.
    change (String ":" b ++ ":budget") with (String ":" (b ++ ":budget")).
    now rewrite split_on_segment by exact Hc.
Qed.

End OperatorFacts.

(** ** The properties above, on sample requests and stores *)

Module Examples.

Lemma estimate_matches_actual_witness :
  @estimate_cost sample_builtins gpt4_catalog "gpt-4" (Some 1000) (Some 500) None
  = calculate_actual_cost gpt4_catalog "gpt-4"
      [("prompt_tokens", JInt 1000); ("completion_tokens", JInt 500)].
Proof.
  apply (@CatalogFacts.estimate_matches_actual sample_builtins gpt4_catalog "gpt-4"
           1000 500 None); reflexivity.
Defined.

Lemma reset_session_restores_defaults_witness :
  exists w',
    (do* Budget.reset_session 0 "alice" in get_budget_info settings 0 "alice") ledger_world
    = (Ok (mkInfo 10 0 (float_max 0 (10 - 0))), w')
    /\ store w' !! _get_budget_key "alice" = None
    /\ store w' !! _get_spent_key "alice" = None.
Proof.
  apply (LedgerFacts.reset_session_restores_defaults settings 0 0 "alice" ledger_world).
  intros n. reflexivity.
Defined.




Lemma ledger_is_per_session_witness :
  store (snd (set_budget "bob" 3 ledger_world)) !! _get_budget_key "alice"
  = store ledger_world !! _get_budget_key "alice"
  /\ store (snd (check_budget settings 0 "bob" 3 ledger_world)) !! _get_budget_key "alice"
     = store ledger_world !! _get_budget_key "alice"
  /\ store (snd (deduct_cost settings 0 "bob" 3 ledger_world)) !! _get_budget_key "alice"
     = store ledger_world !! _get_budget_key "alice"
  /\ store (snd (Budget.reset_session 0 "bob" ledger_world)) !! _get_budget_key "alice"
     = store ledger_world !! _get_budget_key "alice".
Proof.
  apply (IsolationFacts.ledger_is_per_session settings 0 "bob" "alice").
  - discriminate.
  - unfold session_keys. apply in_or_app. right. left. reflexivity.
Defined.




Lemma velocity_check_never_fires_witness :
  is_velocity_block
    (fst (@check_anomalies sample_builtins sample_instant "alice" "gpt-4"
            (Some [JStr "hello"]) (Some 16) 0.5 velocity_world))
  = false
  /\ (admitted (fst (@check_anomalies sample_builtins sample_instant "alice" "gpt-4"
                       (Some [JStr "hello"]) (Some 16) 0.5 velocity_world)) = true ->
      store (snd (@check_anomalies sample_builtins sample_instant "alice" "gpt-4"
                    (Some [JStr "hello"]) (Some 16) 0.5 velocity_world))
        !! key_spend_velocity "alice" = None).
Proof.
  apply (@VelocityFacts.velocity_check_never_fires sample_builtins sample_instant
           "alice" "gpt-4" (Some [JStr "hello"]) (Some 16) 0.5 velocity_world).
  - vm_compute. reflexivity.
  - vm_compute. reflexivity.
Defined.

Lemma history_is_bounded_witness :
  exists older,
    store (snd (@check_anomalies sample_builtins sample_instant "alice" "gpt-4"
                  (Some [JStr "hello"]) (Some 16) 0 fresh_world))
      !! key_request_history "alice"
    = Some (mkEntry
              (RList (@json_dumps sample_builtins
                        (JObj [("timestamp", JStr (@isoformat sample_builtins sample_instant));
                               ("model", JStr "gpt-4");
                               ("cost", JFloat 0)]) :: older))
              (Some (sample_instant + seconds 3600)))
    /\ (length older <= 99)%nat.
Proof.
  apply (@HistoryFacts.history_is_bounded sample_builtins sample_instant "alice"
           "gpt-4" (Some [JStr "hello"]) (Some 16) 0 fresh_world).
  vm_compute. reflexivity.
Defined.

Lemma session_stats_read_the_engine_state_witness :
  @get_session_stats sample_builtins sample_instant "alice" ceiling_world
  = (Ok (mkStats true (Some "Manual freeze") 100 0 (sum_scores [])
           max_requests_per_minute max_identical_requests velocity_threshold),
     mkWorld (store ceiling_world) (5 + ops ceiling_world) (down ceiling_world)
       (logs ceiling_world)).
Proof.
  refine (proj2 (@OperatorFacts.session_stats_read_the_engine_state sample_builtins
                   sample_instant "alice" ceiling_world 100 0 [] _ _ _ _)
            (mkEntry (RTime (sample_instant + seconds 100))
                     (Some (sample_instant + seconds 100)))
            (mkEntry (RText "Manual freeze") (Some (sample_instant + seconds 100)))
            (sample_instant + seconds 100) "Manual freeze" _ _ _ _ _).
  - intros n. reflexivity.
  - vm_compute. split; [reflexivity|discriminate].
  - vm_compute. reflexivity.
  - vm_compute. reflexivity.
  - vm_compute. reflexivity.
  - reflexivity.
  - vm_compute. reflexivity.
  - vm_compute. reflexivity.
  - reflexivity.
Defined.


Lemma cli_freeze_is_lifted_at_once_witness :
  let w1 := snd (Cli.freeze_session sample_instant "alice" "Suspicious" fresh_world) in
  fst (Cli.freeze_session sample_instant "alice" "Suspicious" fresh_world) = Ok true
  /\ store w1 !! key_frozen_until "alice"
     = Some (mkEntry (RTime sample_instant) (Some (sample_instant + seconds 3600)))
  /\ fst (@is_session_frozen sample_builtins (sample_instant + seconds 5) "alice" w1)
     = Ok (false, None)
  /\ lookup_live (sample_instant + seconds 5) (key_frozen_until "alice")
       (store (snd (@is_session_frozen sample_builtins (sample_instant + seconds 5)
                      "alice" w1)))
     = None.
Proof.
  apply (@OperatorFacts.cli_freeze_is_lifted_at_once sample_builtins sample_instant
           (sample_instant + seconds 5) "alice" "Suspicious" fresh_world).
  - intros n. reflexivity.
  - vm_compute. discriminate.
Defined.

End Examples.
